(** * exa-mcp-server: tool registry, server shell and capability handlers

    A shallow embedding of [src/index.ts] (configuration normalisation,
    [shouldRegisterTool], the registration sequence, the [tools_list]
    resource) and of the handlers of [src/tools/exaCode.ts] and
    [src/tools/deepSearch.ts], with the properties the specification states
    about them.

    JavaScript strings are sequences of UTF-16 code units; they are modelled
    as [list N], one number per code unit.  Literals of the source are written
    [js "..."]. *)

From Stdlib Require Import NArith ZArith Strings.String Strings.Ascii.
From Stdlib Require Import Numbers.DecimalPos Numbers.DecimalN.
From stdpp Require Import base decidable option list gmap sets.

Local Open Scope N_scope.

(** ** JavaScript strings *)

Abbreviation jsstring := (list N).

Definition js (s : string) : jsstring :=
  (λ c, N_of_ascii c) <$> list_ascii_of_string s.

(** A literal in which the apostrophe stands for the double quote. *)
Definition jsq (s : string) : jsstring :=
  (λ c, if c =? 39 then 34 else c) <$> js s.

(** [WhiteSpace] and [LineTerminator] code points of ECMA-262, the ones
    [String.prototype.trim] strips. *)
Definition isWhiteSpace (c : N) : bool :=
  bool_decide (c ∈ [9; 10; 11; 12; 13; 32; 160; 5760;
                    8192; 8193; 8194; 8195; 8196; 8197; 8198; 8199; 8200;
                    8201; 8202; 8232; 8233; 8239; 8287; 12288; 65279]).

Fixpoint trimStart (s : jsstring) : jsstring :=
  match s with
  | [] => []
  | c :: s' => if isWhiteSpace c then trimStart s' else s
  end.

Definition trimEnd (s : jsstring) : jsstring :=
  reverse (trimStart (reverse s)).

(** [String.prototype.trim] *)
Definition trim (s : jsstring) : jsstring := trimEnd (trimStart s).

(** [String.prototype.split] with a separator of one code unit.  The empty
    string splits into one empty piece. *)
Fixpoint split (sep : N) (s : jsstring) : list jsstring :=
  match s with
  | [] => [[]]
  | c :: s' =>
      if N.eqb c sep then [] :: split sep s'
      else match split sep s' with
           | [] => [[c]]
           | w :: ws => (c :: w) :: ws
           end
  end.

(** [Array.prototype.join] *)
Fixpoint join (sep : jsstring) (l : list jsstring) : jsstring :=
  match l with
  | [] => []
  | [x] => x
  | x :: l' => x ++ sep ++ join sep l'
  end.

(** [Array.prototype.includes] on an array of strings *)
Definition includes (l : list jsstring) (x : jsstring) : bool :=
  bool_decide (x ∈ l).

Definition comma : N := 44.

(** Decimal rendering of a non-negative integer, as a template literal
    renders a number. *)
Fixpoint digitsOfUint (d : Decimal.uint) : jsstring :=
  match d with
  | Decimal.Nil => []
  | Decimal.D0 d' => 48 :: digitsOfUint d'
  | Decimal.D1 d' => 49 :: digitsOfUint d'
  | Decimal.D2 d' => 50 :: digitsOfUint d'
  | Decimal.D3 d' => 51 :: digitsOfUint d'
  | Decimal.D4 d' => 52 :: digitsOfUint d'
  | Decimal.D5 d' => 53 :: digitsOfUint d'
  | Decimal.D6 d' => 54 :: digitsOfUint d'
  | Decimal.D7 d' => 55 :: digitsOfUint d'
  | Decimal.D8 d' => 56 :: digitsOfUint d'
  | Decimal.D9 d' => 57 :: digitsOfUint d'
  end.

Definition numberToString (n : N) : jsstring := digitsOfUint (N.to_uint n).

(** ** The configuration ([configSchema]) *)

(** [z.union([z.array(z.string()), z.string()])] *)
Inductive ToolsParam :=
  | TString (s : jsstring)
  | TArray (a : list jsstring).

Record Config := {
  exaApiKey : option jsstring;
  enabledTools : option ToolsParam;
  tools : option ToolsParam;
  debug : bool
}.

(** Truthiness of an optional string-or-array: [undefined] and the empty
    string are falsy, every array is truthy. *)
Definition truthy (v : option ToolsParam) : bool :=
  match v with
  | None => false
  | Some (TString s) => negb (bool_decide (s = []))
  | Some (TArray _) => true
  end.

(** [a || b] *)
Definition jsOr (a b : option ToolsParam) : option ToolsParam :=
  if truthy a then a else b.

(** [const toolsParam = config.tools || config.enabledTools] *)
Definition toolsParam (config : Config) : option ToolsParam :=
  jsOr (tools config) (enabledTools config).

(** The comma-separated form:
    [.split(',').map(tool => tool.trim()).filter(tool => tool.length > 0)] *)
Definition parseToolString (s : jsstring) : list jsstring :=
  filter (λ tool, (0 < length tool)%nat) (trim <$> split comma s).

(** [parsedEnabledTools], [undefined] being [None] *)
Definition parsedEnabledTools (config : Config) : option (list jsstring) :=
  let tp := toolsParam config in
  if truthy tp then
    match tp with
    | Some (TString s) => Some (parseToolString s)
    | Some (TArray a) => Some a
    | None => None
    end
  else None.

(** ** The tool registry ([availableTools]) *)

Record ToolInfo := {
  name : jsstring;
  description : jsstring;
  enabled : bool
}.

Definition availableTools : list (jsstring * ToolInfo) :=
  [ (js "web_search_exa",
      {| name := js "Web Search (Exa)";
         description := js "Real-time web search using Exa AI";
         enabled := true |});
    (js "get_code_context_exa",
      {| name := js "Code Context Search";
         description := js "Search for code snippets, examples, and documentation from open source repositories";
         enabled := true |});
    (js "crawling_exa",
      {| name := js "Web Crawling";
         description := js "Extract content from specific URLs";
         enabled := false |});
    (js "deep_researcher_start",
      {| name := js "Deep Researcher Start";
         description := js "Start a comprehensive AI research task";
         enabled := false |});
    (js "deep_researcher_check",
      {| name := js "Deep Researcher Check";
         description := js "Check status and retrieve results of research task";
         enabled := false |});
    (js "linkedin_search_exa",
      {| name := js "LinkedIn Search";
         description := js "Search LinkedIn profiles and companies";
         enabled := false |});
    (js "company_research_exa",
      {| name := js "Company Research";
         description := js "Research companies and organizations";
         enabled := false |}) ].

(** [availableTools[toolId]]: the first entry under that key *)
Fixpoint lookupTool (tbl : list (jsstring * ToolInfo)) (toolId : jsstring)
  : option ToolInfo :=
  match tbl with
  | [] => None
  | (k, v) :: tbl' => if bool_decide (k = toolId) then Some v else lookupTool tbl' toolId
  end.

(** [shouldRegisterTool] *)
Definition shouldRegisterTool (config : Config) (toolId : jsstring) : bool :=
  match parsedEnabledTools config with
  | Some l =>
      if bool_decide (0 < length l)%nat then includes l toolId
      else default false (enabled <$> lookupTool availableTools toolId)
  | None => default false (enabled <$> lookupTool availableTools toolId)
  end.

(** ** The server shell (the default export of [index.ts]) *)

(** The registration functions imported from [./tools/]. *)
Inductive Registrar :=
  | registerWebSearchTool
  | registerCompanyResearchTool
  | registerCrawlingTool
  | registerLinkedInSearchTool
  | registerDeepResearchStartTool
  | registerDeepResearchCheckTool
  | registerExaCodeTool.

#[global] Instance Registrar_eq_dec : EqDecision Registrar.
Proof. solve_decision. Defined.

(** What instantiating the server leaves behind: the registration functions
    that were called on the server, the [registeredTools] array, and the
    lines passed to [log]. *)
Record Server := {
  bound : list Registrar;
  registeredTools : list jsstring;
  logs : list jsstring
}.

Definition log (line : jsstring) (st : Server) : Server :=
  {| bound := bound st; registeredTools := registeredTools st;
     logs := logs st ++ [line] |}.

(** One block
    [if (shouldRegisterTool(id)) { registerX(server, cfg); registeredTools.push(id); }] *)
Definition registerIf (config : Config) (toolId : jsstring) (r : Registrar)
    (st : Server) : Server :=
  if shouldRegisterTool config toolId then
    {| bound := bound st ++ [r];
       registeredTools := registeredTools st ++ [toolId];
       logs := logs st |}
  else st.

Definition logStart (config : Config) (st : Server) : Server :=
  if debug config then
    let st := log (js "Starting Exa MCP Server in debug mode") st in
    match parsedEnabledTools config with
    | Some l => log (js "Enabled tools from config: " ++ join (js ", ") l) st
    | None => st
    end
  else st.

Definition logRegistered (config : Config) (st : Server) : Server :=
  if debug config then
    log (js "Registered "
         ++ numberToString (N.of_nat (length (registeredTools st)))
         ++ js " tools: " ++ join (js ", ") (registeredTools st)) st
  else st.

Definition createServer (config : Config) : Server :=
  let st := {| bound := []; registeredTools := []; logs := [] |} in
  let st := logStart config st in
  let st := log (js "Server initialized with modern MCP SDK and Smithery CLI support") st in
  let st := registerIf config (js "web_search_exa") registerWebSearchTool st in
  let st := registerIf config (js "company_research_exa") registerCompanyResearchTool st in
  let st := registerIf config (js "crawling_exa") registerCrawlingTool st in
  let st := registerIf config (js "linkedin_search_exa") registerLinkedInSearchTool st in
  let st := registerIf config (js "deep_researcher_start") registerDeepResearchStartTool st in
  let st := registerIf config (js "deep_researcher_check") registerDeepResearchCheckTool st in
  let st := registerIf config (js "get_code_context_exa") registerExaCodeTool st in
  logRegistered config st.

(** The active capability set of a server instance. *)
Definition activeSet (config : Config) : gset jsstring :=
  list_to_set (registeredTools (createServer config)).

(** The ids of the registry, and those enabled by default. *)
Definition knownIds : list jsstring := availableTools.*1.

Definition defaultIds : list jsstring :=
  (filter (λ e, enabled e.2 = true) availableTools).*1.

(** The order of the registration blocks in the source. *)
Definition registrationOrder : list (jsstring * Registrar) :=
  [ (js "web_search_exa", registerWebSearchTool);
    (js "company_research_exa", registerCompanyResearchTool);
    (js "crawling_exa", registerCrawlingTool);
    (js "linkedin_search_exa", registerLinkedInSearchTool);
    (js "deep_researcher_start", registerDeepResearchStartTool);
    (js "deep_researcher_check", registerDeepResearchCheckTool);
    (js "get_code_context_exa", registerExaCodeTool) ].

(** ** The [tools_list] resource *)

Record ToolsListEntry := {
  tl_id : jsstring;
  tl_name : jsstring;
  tl_description : jsstring;
  tl_enabled : bool
}.

(** [Object.entries(availableTools).map(([id, tool]) => ({..., enabled:
    registeredTools.includes(id)}))], read when the resource is requested. *)
Definition toolsList (st : Server) : list ToolsListEntry :=
  (λ e, {| tl_id := e.1; tl_name := name e.2; tl_description := description e.2;
           tl_enabled := includes (registeredTools st) e.1 |}) <$> availableTools.

(** ** Capability handlers ([tools/exaCode.ts], [tools/deepSearch.ts]) *)

(** The uniform output envelope.  A successful result carries no [isError]
    property, an error result carries [isError: true]. *)
Record ContentBlock := { type : jsstring; text : jsstring }.

Record InvocationResult := {
  content : list ContentBlock;
  isError : option bool
}.

Definition textResult (t : jsstring) : InvocationResult :=
  {| content := [ {| type := js "text"; text := t |} ]; isError := None |}.

Definition errorResult (t : jsstring) : InvocationResult :=
  {| content := [ {| type := js "text"; text := t |} ]; isError := Some true |}.

(** Truthiness of an optional string. *)
Definition truthyStr (v : option jsstring) : bool :=
  match v with
  | Some (_ :: _) => true
  | _ => false
  end.

(** [config?.exaApiKey || process.env.EXA_API_KEY || ''] *)
Definition apiKeyHeader (config : option Config) (env : option jsstring) : jsstring :=
  let k := config ≫= exaApiKey in
  default [] (if truthyStr k then k
              else if truthyStr env then env else Some []).

Definition BASE_URL : jsstring := js "https://api.exa.ai".
Definition ENDPOINT_SEARCH : jsstring := js "/search".
Definition ENDPOINT_CONTEXT : jsstring := js "/context".

(** The instance made by [axios.create] together with the [post] call on it. *)
Record Request (Body : Type) := {
  baseURL : jsstring;
  url : jsstring;
  headers : list (jsstring * jsstring);
  timeout : N;
  body : Body
}.
Arguments baseURL {Body} _.
Arguments url {Body} _.
Arguments headers {Body} _.
Arguments timeout {Body} _.
Arguments body {Body} _.

Definition header {Body} (req : Request Body) (k : jsstring) : option jsstring :=
  (λ r, r.2.2) <$> list_find (λ h, h.1 = k) (headers req).

Definition stdHeaders (config : option Config) (env : option jsstring)
  : list (jsstring * jsstring) :=
  [ (js "accept", js "application/json");
    (js "content-type", js "application/json");
    (js "x-api-key", apiKeyHeader config env) ].

(** A JavaScript value of a shape the handlers do not look into, with its
    truthiness, its conversion to a string in a template literal, and
    [JSON.stringify(v, null, 2)]. *)
Class JsValue := {
  Any : Type;
  truthyAny : Any → bool;
  toString : Any → jsstring;
  JSON_stringify : Any → jsstring
}.

Section Outcomes.
Context `{JsValue}.

(** What [error.response] gives the [catch] block: [status] and
    [data?.message]. *)
Record ErrorResponse := {
  status : N;
  data_message : option Any
}.

(** What the [try] block can throw: an Axios error (with a response when the
    remote end answered with a non-success status, without one when the
    transport failed), another [Error], or any other value. *)
Inductive Thrown :=
  | AxiosError (response : option ErrorResponse) (message : jsstring)
  | OtherError (message : jsstring)
  | NonError (v : Any).

(** The result of awaiting [axiosInstance.post]: a response whose [data] is
    falsy ([None]) or not, or a rejection. *)
Inductive Outcome (R : Type) :=
  | Resolved (data : option R)
  | Rejected (e : Thrown).

(** [error.response?.status || 'unknown'] *)
Definition statusCode (response : option ErrorResponse) : jsstring :=
  match response with
  | Some r => if N.eqb (status r) 0 then js "unknown" else numberToString (status r)
  | None => js "unknown"
  end.

(** [error.response?.data?.message || error.message] *)
Definition errorMessage (response : option ErrorResponse) (message : jsstring)
  : jsstring :=
  match response ≫= data_message with
  | Some m => if truthyAny m then toString m else message
  | None => message
  end.

(** The [catch] block, with the tool's label and the text that follows the
    message of an Axios error. *)
Definition catchBlock (label suffix : jsstring) (e : Thrown) : InvocationResult :=
  match e with
  | AxiosError response message =>
      errorResult (label ++ js " (" ++ statusCode response ++ js "): "
                   ++ errorMessage response message ++ suffix)
  | OtherError message => errorResult (label ++ js ": " ++ message)
  | NonError v => errorResult (label ++ js ": " ++ toString v)
  end.

End Outcomes.
Arguments Resolved {_ R} _.
Arguments Rejected {_ R} _.

(** *** [get_code_context_exa] *)
Module ExaCode.
Section Handler.
Context `{JsValue}.

Record ExaCodeRequest := { query : jsstring; tokensNum : Z }.

(** [ExaCodeResponse]; [response] is declared a string, the handler also
    takes any other value.  The remaining fields are not read. *)
Record ExaCodeResponse := {
  requestId : jsstring;
  response : jsstring + Any;
  resultsCount : option N
}.

Definition request (config : option Config) (env : option jsstring)
    (args : ExaCodeRequest) : Request ExaCodeRequest :=
  {| baseURL := BASE_URL;
     url := ENDPOINT_CONTEXT;
     headers := stdHeaders config env;
     timeout := 30000;
     body := {| query := query args; tokensNum := tokensNum args |} |}.

Definition noResultText : jsstring :=
  js "No code snippets or documentation found. Please try a different query, be more specific about the library or programming concept, or check the spelling of framework names.".

(** [typeof response.data.response === 'string' ? ... : JSON.stringify(...)] *)
Definition codeContent (d : ExaCodeResponse) : jsstring :=
  match response d with
  | inl s => s
  | inr v => JSON_stringify v
  end.

Definition result (o : Outcome ExaCodeResponse) : InvocationResult :=
  match o with
  | Resolved None => textResult noResultText
  | Resolved (Some d) => textResult (codeContent d)
  | Rejected e =>
      catchBlock (js "Code search error")
                 (js ". Please check your query and try again.") e
  end.

(** The handler, given the answer of the remote end to the request it
    issues: the requests issued and the result returned. *)
Definition handler (remote : Request ExaCodeRequest → Outcome ExaCodeResponse)
    (config : option Config) (env : option jsstring) (args : ExaCodeRequest)
  : list (Request ExaCodeRequest) * InvocationResult :=
  let req := request config env args in
  ([req], result (remote req)).

End Handler.
End ExaCode.

(** *** [deep_search_exa] *)
Module DeepSearch.
Section Handler.
Context `{JsValue}.

Inductive Livecrawl := fallback | preferred.

Record Args := {
  objective : jsstring;
  search_queries : option (list jsstring);
  numResults : option Z;
  livecrawl : option Livecrawl
}.

Record Contents := {
  c_text : bool;
  c_summary : bool;
  c_livecrawl : Livecrawl
}.

Record ExaSearchRequest := {
  query : jsstring;
  r_type : jsstring;
  r_numResults : Z;
  contents : Contents;
  queryVariants : option (list jsstring)
}.

(** [ExaSearchResponse]: the handler reads [results] only and serialises
    the whole of the data, kept here as [raw]. *)
Record ExaSearchResponse := {
  results : option (list Any);
  raw : Any
}.

(** [numResults || 10] *)
Definition numResultsOr10 (n : option Z) : Z :=
  match n with
  | Some n => if Z.eqb n 0 then 10%Z else n
  | None => 10%Z
  end.

Definition searchRequest (args : Args) : ExaSearchRequest :=
  {| query := objective args;
     r_type := js "deep";
     r_numResults := numResultsOr10 (numResults args);
     contents := {| c_text := false; c_summary := true;
                    c_livecrawl := default fallback (livecrawl args) |};
     queryVariants :=
       match search_queries args with
       | Some (q :: qs) => Some (q :: qs)
       | _ => None
       end |}.

Definition request (config : option Config) (env : option jsstring)
    (args : Args) : Request ExaSearchRequest :=
  {| baseURL := BASE_URL;
     url := ENDPOINT_SEARCH;
     headers := stdHeaders config env;
     timeout := 25000;
     body := searchRequest args |}.

Definition noResultText : jsstring :=
  js "No search results found. Please try a different query or adjust your search parameters.".

(** [!response.data || !response.data.results ||
     response.data.results.length === 0] guards the success path. *)
Definition result (o : Outcome ExaSearchResponse) : InvocationResult :=
  match o with
  | Resolved None => textResult noResultText
  | Resolved (Some d) =>
      match results d with
      | None => textResult noResultText
      | Some rs =>
          if bool_decide (length rs = 0%nat) then textResult noResultText
          else textResult (JSON_stringify (raw d))
      end
  | Rejected e => catchBlock (js "Deep search error") [] e
  end.

Definition handler (remote : Request ExaSearchRequest → Outcome ExaSearchResponse)
    (config : option Config) (env : option jsstring) (args : Args)
  : list (Request ExaSearchRequest) * InvocationResult :=
  let req := request config env args in
  ([req], result (remote req)).

End Handler.
End DeepSearch.

(** ** The research task poll (section 4.3 of the specification) *)

Module Poll.

#[local] Set Warnings "-register-all".

(** The structured payload of a task: a JSON value.  Numbers are the
    integers. *)
Inductive Json :=
  | JNull
  | JBool (b : bool)
  | JNumber (n : Z)
  | JString (s : jsstring)
  | JArray (items : list Json)
  | JObject (fields : list (jsstring * Json)).

(** *** Serialization *)

(** A quote or a backslash inside a string is preceded by a backslash. *)
Definition escapeChar (c : N) : jsstring :=
  if (c =? 34) || (c =? 92) then [92; c] else [c].

Definition quote (s : jsstring) : jsstring :=
  34 :: (s ≫= escapeChar) ++ [34].

Definition printNumber (z : Z) : jsstring :=
  if (z <? 0)%Z then 45 :: numberToString (Z.to_N (- z))
  else numberToString (Z.to_N z).

(** Modelled from the spec: the deterministic serialization of a structured
    payload that the poll handler ([tools/deepResearchCheck.ts], not among the
    sources) writes into the result text (sections 4.3 and 8).  The text is
    compact JSON. *)
Fixpoint serializeValue (v : Json) : jsstring :=
  match v with
  | JNull => js "null"
  | JBool true => js "true"
  | JBool false => js "false"
  | JNumber n => printNumber n
  | JString s => quote s
  | JArray items => 91 :: join [comma] (serializeValue <$> items) ++ [93]
  | JObject fields =>
      123 :: join [comma]
               ((λ '(k, x), quote k ++ 58 :: serializeValue x) <$> fields)
          ++ [125]
  end.

(** *** Parsing *)

Definition digitOf (c : N) : option (Decimal.uint → Decimal.uint) :=
  if c =? 48 then Some Decimal.D0 else if c =? 49 then Some Decimal.D1
  else if c =? 50 then Some Decimal.D2 else if c =? 51 then Some Decimal.D3
  else if c =? 52 then Some Decimal.D4 else if c =? 53 then Some Decimal.D5
  else if c =? 54 then Some Decimal.D6 else if c =? 55 then Some Decimal.D7
  else if c =? 56 then Some Decimal.D8 else if c =? 57 then Some Decimal.D9
  else None.

Definition isDigit (c : N) : bool :=
  match digitOf c with Some _ => true | None => false end.

(** The longest run of digits in front of a string. *)
Fixpoint parseUint (s : jsstring) : Decimal.uint * jsstring :=
  match s with
  | [] => (Decimal.Nil, [])
  | c :: r =>
      match digitOf c with
      | Some D => let '(d, r') := parseUint r in (D d, r')
      | None => (Decimal.Nil, s)
      end
  end.

Definition parseNat (s : jsstring) : option (N * jsstring) :=
  match parseUint s with
  | (Decimal.Nil, _) => None
  | (d, r) => Some (N.of_uint d, r)
  end.

(** The characters of a string up to its closing quote. *)
Fixpoint parseChars (s : jsstring) : option (jsstring * jsstring) :=
  match s with
  | [] => None
  | c :: r =>
      if c =? 34 then Some ([], r)
      else if c =? 92 then
        match r with
        | d :: r' =>
            if (d =? 34) || (d =? 92) then
              '(str, r'') ← parseChars r'; Some (d :: str, r'')
            else None
        | [] => None
        end
      else '(str, r') ← parseChars r; Some (c :: str, r')
  end.

(** What follows the prefix [p] in [s], when [s] starts with [p]. *)
Fixpoint expect (p s : jsstring) : option jsstring :=
  match p with
  | [] => Some s
  | c :: p' =>
      match s with
      | d :: s' => if c =? d then expect p' s' else None
      | [] => None
      end
  end.

(** Modelled from the spec: the parsing that gives the payload back from
    its serialization (section 8), by recursive descent; [fuel] bounds the
    nesting and the number of items. *)
Fixpoint parseValue (fuel : nat) (s : jsstring) {struct fuel}
  : option (Json * jsstring) :=
  match fuel, s with
  | S fuel, c :: r =>
      if isDigit c then '(n, r') ← parseNat s; Some (JNumber (Z.of_N n), r')
      else if c =? 45 then '(n, r') ← parseNat r; Some (JNumber (- Z.of_N n), r')
      else if c =? 110 then r' ← expect (js "ull") r; Some (JNull, r')
      else if c =? 116 then r' ← expect (js "rue") r; Some (JBool true, r')
      else if c =? 102 then r' ← expect (js "alse") r; Some (JBool false, r')
      else if c =? 34 then '(str, r') ← parseChars r; Some (JString str, r')
      else if c =? 91 then
        match r with
        | d :: r' =>
            if d =? 93 then Some (JArray [], r')
            else '(l, r'') ← parseItems fuel r; Some (JArray l, r'')
        | [] => None
        end
      else if c =? 123 then
        match r with
        | d :: r' =>
            if d =? 125 then Some (JObject [], r')
            else '(l, r'') ← parseFields fuel r; Some (JObject l, r'')
        | [] => None
        end
      else None
  | _, _ => None
  end
with parseItems (fuel : nat) (s : jsstring) {struct fuel}
  : option (list Json * jsstring) :=
  match fuel with
  | S fuel =>
      '(x, r) ← parseValue fuel s;
      match r with
      | c :: r' =>
          if c =? 93 then Some ([x], r')
          else if c =? 44 then '(l, r'') ← parseItems fuel r'; Some (x :: l, r'')
          else None
      | [] => None
      end
  | O => None
  end
with parseFields (fuel : nat) (s : jsstring) {struct fuel}
  : option (list (jsstring * Json) * jsstring) :=
  match fuel, s with
  | S fuel, c :: r =>
      if c =? 34 then
        '(k, r1) ← parseChars r;
        match r1 with
        | d :: r2 =>
            if d =? 58 then
              '(x, r3) ← parseValue fuel r2;
              match r3 with
              | e :: r4 =>
                  if e =? 125 then Some ([(k, x)], r4)
                  else if e =? 44 then
                    '(l, r5) ← parseFields fuel r4; Some ((k, x) :: l, r5)
                  else None
              | [] => None
              end
            else None
        | [] => None
        end
      else None
  | _, _ => None
  end.

(** A text is parsed as one value, with nothing left over. *)
Definition parseJson (s : jsstring) : option Json :=
  match parseValue (S (length s)) s with
  | Some (v, []) => Some v
  | _ => None
  end.

(** *** The poll result *)

(** [DeepResearchCheckResponse.status] *)
Inductive TaskStatus := running | completed | failed.

(** [DeepResearchCheckResponse] ([types.ts]), with the fields of the
    ResearchTask of the specification; [data] is an object, kept as the list
    of its fields. *)
Record ResearchTask := {
  taskId : jsstring;
  createdAt : N;
  status : TaskStatus;
  instructions : jsstring;
  data : option (list (jsstring * Json));
  citations : option Json;
  costDollars : option Json
}.

(** [data.report], declared a string. *)
Definition report (d : list (jsstring * Json)) : option jsstring :=
  match list_find (λ f, f.1 = js "report") d with
  | Some (_, (_, JString r)) => Some r
  | _ => None
  end.

(** Modelled from the spec: the result the poll handler
    ([tools/deepResearchCheck.ts], not among the sources) makes of a snapshot,
    after section 4.3.  A running task gives a "not ready" text that is not an
    error; a completed task gives its report, or without a report the
    serialization of its payload; a completed task without any data is a
    malformed snapshot and a failed task is "failed, no further detail", both
    flagged as errors. *)
Definition pollResult (snap : ResearchTask) : InvocationResult :=
  match status snap with
  | running => textResult (js "not ready")
  | completed =>
      match data snap with
      | Some d =>
          match report d with
          | Some r => textResult r
          | None => textResult (serializeValue (JObject d))
          end
      | None => errorResult (js "malformed snapshot")
      end
  | failed => errorResult (js "failed, no further detail")
  end.

(** *** Measures and sample values for the properties *)

Section JsonInduction.
Variable P : Json → Prop.
Hypothesis Hnull : P JNull.
Hypothesis Hbool : ∀ b, P (JBool b).
Hypothesis Hnumber : ∀ n, P (JNumber n).
Hypothesis Hstring : ∀ s, P (JString s).
Hypothesis Harray : ∀ items, Forall P items → P (JArray items).
Hypothesis Hobject : ∀ fields, Forall (λ f, P f.2) fields → P (JObject fields).

Fixpoint Json_nested_ind (v : Json) : P v :=
  match v with
  | JNull => Hnull
  | JBool b => Hbool b
  | JNumber n => Hnumber n
  | JString s => Hstring s
  | JArray items =>
      Harray items
        ((fix go (l : list Json) : Forall P l :=
            match l with
            | [] => List.Forall_nil _
            | x :: l' => @List.Forall_cons _ P x l' (Json_nested_ind x) (go l')
            end) items)
  | JObject fields =>
      Hobject fields
        ((fix go (l : list (jsstring * Json)) : Forall (λ f, P f.2) l :=
            match l with
            | [] => List.Forall_nil _
            | f :: l' =>
                @List.Forall_cons _ (λ f, P f.2) f l' (Json_nested_ind f.2) (go l')
            end) fields)
  end.
End JsonInduction.

(** What may follow a number: anything but a digit. *)
Definition delimited (rest : jsstring) : Prop :=
  match rest with
  | [] => True
  | c :: _ => isDigit c = false
  end.

Definition printField (f : jsstring * Json) : jsstring :=
  quote f.1 ++ 58 :: serializeValue f.2.

(** The fuel a value needs. *)
Fixpoint size (v : Json) : nat :=
  match v with
  | JArray items => S (foldr (λ x n, S (size x + n)) 0%nat items)
  | JObject fields => S (foldr (λ '(_, x) n, S (size x + n)) 0%nat fields)
  | _ => 1
  end.

Definition sizeItems (l : list Json) : nat :=
  foldr (λ x n, S (size x + n)) 0%nat l.

Definition sizeFields (l : list (jsstring * Json)) : nat :=
  foldr (λ '(_, x) n, S (size x + n)) 0%nat l.

Definition roundtrips (x : Json) : Prop :=
  ∀ fuel rest, (size x ≤ fuel)%nat → delimited rest →
    parseValue fuel (serializeValue x ++ rest) = Some (x, rest).

Definition sampleValue : Json :=
  JObject [ (js "summary", JString (js "a \ b"));
            (js "sources", JArray [JNumber 12; JNumber (-3); JNull; JBool true]);
            (js "empty", JObject []) ].

Definition withReport : ResearchTask :=
  {| taskId := js "task-1"; createdAt := 1700000000; status := completed;
     instructions := js "summarise";
     data := Some [ (js "report", JString (js "X")); (js "pages", JNumber 3) ];
     citations := None; costDollars := None |}.

Definition withoutReport : ResearchTask :=
  {| taskId := js "task-2"; createdAt := 1700000001; status := completed;
     instructions := js "summarise";
     data := Some [ (js "answer", JString (js "42")); (js "pages", JNumber 3) ];
     citations := Some JNull; costDollars := None |}.

End Poll.

(** ** Other revisions of the sources ([src/unnamed]) *)

(** *** The server shell of version 2.1.1 ([unnamed/part_005], first file)

    The selection is an array under [enabledTools]; there is neither a string
    form nor the [tools] name.  The registry is the one above. *)
Module V2.

Record Config := {
  exaApiKey : option jsstring;
  enabledTools : option (list jsstring);
  debug : bool
}.

Definition shouldRegisterTool (config : Config) (toolId : jsstring) : bool :=
  match enabledTools config with
  | Some l =>
      if bool_decide (0 < length l)%nat then includes l toolId
      else default false (enabled <$> lookupTool availableTools toolId)
  | None => default false (enabled <$> lookupTool availableTools toolId)
  end.

Definition registerIf (config : Config) (toolId : jsstring) (r : Registrar)
    (st : Server) : Server :=
  if shouldRegisterTool config toolId then
    {| bound := bound st ++ [r];
       registeredTools := registeredTools st ++ [toolId];
       logs := logs st |}
  else st.

Definition createServer (config : Config) : Server :=
  let st := {| bound := []; registeredTools := []; logs := [] |} in
  let st := if debug config
            then log (js "Starting Exa MCP Server in debug mode") st else st in
  let st := log (js "Server initialized with modern MCP SDK and Smithery CLI support") st in
  let st := registerIf config (js "web_search_exa") registerWebSearchTool st in
  let st := registerIf config (js "company_research_exa") registerCompanyResearchTool st in
  let st := registerIf config (js "crawling_exa") registerCrawlingTool st in
  let st := registerIf config (js "linkedin_search_exa") registerLinkedInSearchTool st in
  let st := registerIf config (js "deep_researcher_start") registerDeepResearchStartTool st in
  let st := registerIf config (js "deep_researcher_check") registerDeepResearchCheckTool st in
  let st := registerIf config (js "get_code_context_exa") registerExaCodeTool st in
  if debug config then
    log (js "Registered "
         ++ numberToString (N.of_nat (length (registeredTools st)))
         ++ js " tools: " ++ join (js ", ") (registeredTools st)) st
  else st.

End V2.

(** *** The server shell of version 3.1.0 ([unnamed/part_005], second file)

    The configuration and its parsing are those of [index.ts]; the registry
    and the registration blocks have one more tool, [deep_search_exa], and
    analytics tracking is switched on at the end. *)
Module V3.

Inductive Registrar :=
  | registerWebSearchTool
  | registerDeepSearchTool
  | registerCompanyResearchTool
  | registerCrawlingTool
  | registerLinkedInSearchTool
  | registerDeepResearchStartTool
  | registerDeepResearchCheckTool
  | registerExaCodeTool.

Record Server := {
  bound : list Registrar;
  registeredTools : list jsstring;
  logs : list jsstring;
  tracked : bool
}.

Definition availableTools : list (jsstring * ToolInfo) :=
  [ (js "web_search_exa",
      {| name := js "Web Search (Exa)";
         description := js "Real-time web search using Exa AI";
         enabled := true |});
    (js "get_code_context_exa",
      {| name := js "Code Context Search";
         description := js "Search for code snippets, examples, and documentation from open source repositories";
         enabled := true |});
    (js "deep_search_exa",
      {| name := js "Deep Search (Exa)";
         description := js "Advanced web search with query expansion and high-quality summaries";
         enabled := false |});
    (js "crawling_exa",
      {| name := js "Web Crawling";
         description := js "Extract content from specific URLs";
         enabled := false |});
    (js "deep_researcher_start",
      {| name := js "Deep Researcher Start";
         description := js "Start a comprehensive AI research task";
         enabled := false |});
    (js "deep_researcher_check",
      {| name := js "Deep Researcher Check";
         description := js "Check status and retrieve results of research task";
         enabled := false |});
    (js "linkedin_search_exa",
      {| name := js "LinkedIn Search";
         description := js "Search LinkedIn profiles and companies";
         enabled := false |});
    (js "company_research_exa",
      {| name := js "Company Research";
         description := js "Research companies and organizations";
         enabled := false |}) ].

Definition shouldRegisterTool (config : Config) (toolId : jsstring) : bool :=
  match parsedEnabledTools config with
  | Some l =>
      if bool_decide (0 < length l)%nat then includes l toolId
      else default false (enabled <$> lookupTool availableTools toolId)
  | None => default false (enabled <$> lookupTool availableTools toolId)
  end.

Definition log (line : jsstring) (st : Server) : Server :=
  {| bound := bound st; registeredTools := registeredTools st;
     logs := logs st ++ [line]; tracked := tracked st |}.

Definition registerIf (config : Config) (toolId : jsstring) (r : Registrar)
    (st : Server) : Server :=
  if shouldRegisterTool config toolId then
    {| bound := bound st ++ [r];
       registeredTools := registeredTools st ++ [toolId];
       logs := logs st; tracked := tracked st |}
  else st.

Definition logStart (config : Config) (st : Server) : Server :=
  if debug config then
    let st := log (js "Starting Exa MCP Server in debug mode") st in
    match parsedEnabledTools config with
    | Some l => log (js "Enabled tools from config: " ++ join (js ", ") l) st
    | None => st
    end
  else st.

Definition logRegistered (config : Config) (st : Server) : Server :=
  if debug config then
    log (js "Registered "
         ++ numberToString (N.of_nat (length (registeredTools st)))
         ++ js " tools: " ++ join (js ", ") (registeredTools st)) st
  else st.

(** [trackMCP(server.server, ...)] and the debug line after it *)
Definition trackMCP (config : Config) (st : Server) : Server :=
  let st := {| bound := bound st; registeredTools := registeredTools st;
               logs := logs st; tracked := true |} in
  if debug config then log (js "Agnost analytics tracking enabled") st else st.

Definition createServer (config : Config) : Server :=
  let st := {| bound := []; registeredTools := []; logs := []; tracked := false |} in
  let st := logStart config st in
  let st := log (js "Server initialized with modern MCP SDK and Smithery CLI support") st in
  let st := registerIf config (js "web_search_exa") registerWebSearchTool st in
  let st := registerIf config (js "deep_search_exa") registerDeepSearchTool st in
  let st := registerIf config (js "company_research_exa") registerCompanyResearchTool st in
  let st := registerIf config (js "crawling_exa") registerCrawlingTool st in
  let st := registerIf config (js "linkedin_search_exa") registerLinkedInSearchTool st in
  let st := registerIf config (js "deep_researcher_start") registerDeepResearchStartTool st in
  let st := registerIf config (js "deep_researcher_check") registerDeepResearchCheckTool st in
  let st := registerIf config (js "get_code_context_exa") registerExaCodeTool st in
  let st := logRegistered config st in
  trackMCP config st.

End V3.

(** *** [deep_search_exa] in its earlier form ([unnamed/part_004])

    The request asks for a context, and the answer is that context, a string;
    the request carries one more header. *)
Module DeepSearchContext.
Section Handler.
Context `{JsValue}.

Record Args := {
  objective : jsstring;
  search_queries : option (list jsstring)
}.

Record ExaSearchRequest := {
  query : jsstring;
  r_type : jsstring;
  contents_context : bool;
  additionalQueries : option (list jsstring)
}.

(** [response.data.context] is all the handler reads. *)
Record ExaSearchResponse := { r_context : option jsstring }.

Definition searchRequest (args : Args) : ExaSearchRequest :=
  {| query := objective args;
     r_type := js "deep";
     contents_context := true;
     additionalQueries :=
       match search_queries args with
       | Some (q :: qs) => Some (q :: qs)
       | _ => None
       end |}.

Definition request (config : option Config) (env : option jsstring)
    (args : Args) : Request ExaSearchRequest :=
  {| baseURL := BASE_URL;
     url := ENDPOINT_SEARCH;
     headers := stdHeaders config env
                ++ [ (js "x-exa-integration", js "deep-search-mcp") ];
     timeout := 25000;
     body := searchRequest args |}.

Definition noResultText : jsstring :=
  js "No search results found. Please try a different query.".

(** [!response.data || !response.data.context] guards the success path; the
    empty string is falsy. *)
Definition result (o : Outcome ExaSearchResponse) : InvocationResult :=
  match o with
  | Resolved None => textResult noResultText
  | Resolved (Some d) =>
      match r_context d with
      | Some (c :: t) => textResult (c :: t)
      | _ => textResult noResultText
      end
  | Rejected e => catchBlock (js "Deep search error") [] e
  end.

Definition handler (remote : Request ExaSearchRequest → Outcome ExaSearchResponse)
    (config : option Config) (env : option jsstring) (args : Args)
  : list (Request ExaSearchRequest) * InvocationResult :=
  let req := request config env args in
  ([req], result (remote req)).

End Handler.
End DeepSearchContext.

(** * The vocabulary of the properties *)

(** The list the registration decision is taken on: the parsed list, empty
    when nothing was configured. *)
Definition effectiveTools (config : Config) : list jsstring :=
  default [] (parsedEnabledTools config).

(** How the code normalises a configured value: a string is split, trimmed
    and filtered, an array is taken as it is. *)
Definition normalizedTools (v : option ToolsParam) : list jsstring :=
  match v with
  | None => []
  | Some (TString s) => parseToolString s
  | Some (TArray a) => a
  end.

(** The normal form the specification describes for both forms: trimmed,
    non-empty identifiers. *)
Definition specNormalizedTools (v : option ToolsParam) : list jsstring :=
  match v with
  | None => []
  | Some (TString s) => parseToolString s
  | Some (TArray a) => filter (λ tool, (0 < length tool)%nat) (trim <$> a)
  end.

Definition defaultEnabled (toolId : jsstring) : bool :=
  default false (enabled <$> lookupTool availableTools toolId).

(** The claim that registration follows the order of the configured list. *)
Definition preservesInputOrder (config : Config) : Prop :=
  registeredTools (createServer config) `sublist_of` effectiveTools config.

(** A non-empty string, the truthy case of an optional string. *)
Definition nonEmptyStr (v : option jsstring) : Prop :=
  ∃ s, v = Some s ∧ s ≠ [].

Section Vocabulary.
Context `{JsValue}.


(** The structurally empty responses of the search endpoint: no data, no
    [results], or an empty [results] array. *)
Definition structurallyEmpty (data : option DeepSearch.ExaSearchResponse) : Prop :=
  data = None
  ∨ ∃ d, data = Some d
         ∧ (DeepSearch.results d = None ∨ DeepSearch.results d = Some []).

End Vocabulary.

(** ** Sample configurations and answers *)

(** The configuration of the second testable property, with the ids of the
    code: one known id, one unknown id. *)
Definition mixedConfig : Config :=
  {| exaApiKey := None;
     enabledTools := Some (TArray [js "web_search_exa"; js "bogus_tool"]);
     tools := None; debug := false |}.

(** A configuration that sets [tools] only. *)
Definition toolsConfig (v : option ToolsParam) : Config :=
  {| exaApiKey := None; enabledTools := None; tools := v; debug := false |}.

(** The array the string ["  , ,"] splits into, given as an array. *)
Definition blankArrayConfig : Config :=
  toolsConfig (Some (TArray [js "  "; js " "; []])).

Definition viaTools (k : option jsstring) (d : bool) (v : ToolsParam) : Config :=
  {| exaApiKey := k; enabledTools := None; tools := Some v; debug := d |}.

Definition viaEnabledTools (k : option jsstring) (d : bool) (v : ToolsParam)
  : Config :=
  {| exaApiKey := k; enabledTools := Some v; tools := None; debug := d |}.

(** Two configurations listing the same two tools in opposite orders. *)
Definition codeThenWeb : Config :=
  {| exaApiKey := None;
     enabledTools := Some (TArray [js "get_code_context_exa"; js "web_search_exa"]);
     tools := None; debug := true |}.

Definition webThenCode : Config :=
  {| exaApiKey := None;
     enabledTools := Some (TArray [js "web_search_exa"; js "get_code_context_exa"]);
     tools := None; debug := true |}.

(** Values that are non-negative integers. *)
Definition numberValues : JsValue :=
  {| Any := N;
     truthyAny := λ n, negb (N.eqb n 0);
     toString := numberToString;
     JSON_stringify := numberToString |}.

Definition keyConfig : Config :=
  {| exaApiKey := Some (js "key-1"); enabledTools := None; tools := None;
     debug := false |}.

Definition noKeyConfig : Config :=
  {| exaApiKey := Some []; enabledTools := None; tools := None; debug := false |}.

Definition codeArgs : ExaCode.ExaCodeRequest :=
  {| ExaCode.query := js "React useState"; ExaCode.tokensNum := 3000 |}.

Definition searchArgs : DeepSearch.Args :=
  {| DeepSearch.objective := js "rocq"; DeepSearch.search_queries := None;
     DeepSearch.numResults := None; DeepSearch.livecrawl := None |}.


(** Answers of the code context endpoint that carry data and count zero
    results: one with an empty [response], one with a [response] in words. *)
Definition zeroCountAnswer : @ExaCode.ExaCodeResponse numberValues :=
  @ExaCode.Build_ExaCodeResponse numberValues (js "r1") (inl []) (Some 0).

Definition wordyZeroCount : @ExaCode.ExaCodeResponse numberValues :=
  @ExaCode.Build_ExaCodeResponse numberValues (js "r2") (inl (js "no match")) (Some 0).

(** An answer of the search endpoint with an empty [results] array. *)
Definition zeroResults : @DeepSearch.ExaSearchResponse numberValues :=
  @DeepSearch.Build_ExaSearchResponse numberValues (Some []) 0.

(** ** Vocabulary and samples of the further properties *)

(** No white space in front. *)
Definition startsClean (x : jsstring) : Prop :=
  match x with
  | [] => True
  | c :: _ => isWhiteSpace c = false
  end.

(** An identifier as the string form yields them: not empty, nothing to
    trim, no comma. *)
Definition cleanEntry (x : jsstring) : Prop :=
  x ≠ [] ∧ trim x = x ∧ comma ∉ x.

(** A configuration without its [enabledTools], without its [tools], with
    another debug flag. *)
Definition dropEnabledTools (config : Config) : Config :=
  {| exaApiKey := exaApiKey config; enabledTools := None;
     tools := tools config; debug := debug config |}.

Definition dropTools (config : Config) : Config :=
  {| exaApiKey := exaApiKey config; enabledTools := enabledTools config;
     tools := None; debug := debug config |}.

Definition setDebug (b : bool) (config : Config) : Config :=
  {| exaApiKey := exaApiKey config; enabledTools := enabledTools config;
     tools := tools config; debug := b |}.


(** The empty array under [tools] beside a selection under [enabledTools]. *)
Definition shadowedConfig : Config :=
  {| exaApiKey := None; enabledTools := Some (TString (js "crawling_exa"));
     tools := Some (TArray []); debug := false |}.

(** The empty string under [tools] beside a selection under [enabledTools]. *)
Definition fallThroughConfig : Config :=
  {| exaApiKey := None; enabledTools := Some (TString (js "crawling_exa"));
     tools := Some (TString []); debug := false |}.

(** A selection of ids that the registry of [index.ts] does not hold. *)
Definition unknownOnlyConfig : Config :=
  {| exaApiKey := None; enabledTools := None;
     tools := Some (TString (js "deep_search_exa, Web_Search_Exa"));
     debug := false |}.


(** The order of the registration blocks of version 3.1.0. *)
Definition registrationOrderV3 : list (jsstring * V3.Registrar) :=
  [ (js "web_search_exa", V3.registerWebSearchTool);
    (js "deep_search_exa", V3.registerDeepSearchTool);
    (js "company_research_exa", V3.registerCompanyResearchTool);
    (js "crawling_exa", V3.registerCrawlingTool);
    (js "linkedin_search_exa", V3.registerLinkedInSearchTool);
    (js "deep_researcher_start", V3.registerDeepResearchStartTool);
    (js "deep_researcher_check", V3.registerDeepResearchCheckTool);
    (js "get_code_context_exa", V3.registerExaCodeTool) ].


(** A selection that names the deep search tool. *)
Definition deepSearchConfig : Config :=
  {| exaApiKey := None; enabledTools := None;
     tools := Some (TString (js "deep_search_exa,web_search_exa"));
     debug := false |}.

(** Arguments of a deep search with every option set. *)
Definition variantArgs : DeepSearch.Args :=
  {| DeepSearch.objective := js "rocq";
     DeepSearch.search_queries := Some [js "rocq prover"];
     DeepSearch.numResults := Some 5%Z;
     DeepSearch.livecrawl := Some DeepSearch.preferred |}.




(** * Properties *)

(** A closed decidable fact, by evaluation of its decision procedure. *)
Ltac by_computation := apply (bool_decide_unpack _); by vm_compute.

(** ** The registry and the registration sequence *)

Lemma effectiveTools_normalized config :
  effectiveTools config = normalizedTools (toolsParam config).
Proof.
  unfold effectiveTools, parsedEnabledTools.
  destruct (toolsParam config) as [[s|a]|]; simpl; try done.
  destruct s; simpl; done.
Qed.

Lemma shouldRegisterTool_effective config toolId :
  shouldRegisterTool config toolId =
    match effectiveTools config with
    | [] => defaultEnabled toolId
    | l => includes l toolId
    end.
Proof.
  unfold shouldRegisterTool, effectiveTools, defaultEnabled.
  destruct (parsedEnabledTools config) as [[|x l]|]; done.
Qed.

Lemma registeredTools_log line st : registeredTools (log line st) = registeredTools st.
Proof. done. Qed.

Lemma bound_log line st : bound (log line st) = bound st.
Proof. done. Qed.

Lemma registeredTools_logStart config st :
  registeredTools (logStart config st) = registeredTools st.
Proof.
  unfold logStart. destruct (debug config); [|done].
  by destruct (parsedEnabledTools config).
Qed.

Lemma bound_logStart config st : bound (logStart config st) = bound st.
Proof.
  unfold logStart. destruct (debug config); [|done].
  by destruct (parsedEnabledTools config).
Qed.

Lemma registeredTools_logRegistered config st :
  registeredTools (logRegistered config st) = registeredTools st.
Proof. unfold logRegistered. by destruct (debug config). Qed.

Lemma bound_logRegistered config st : bound (logRegistered config st) = bound st.
Proof. unfold logRegistered. by destruct (debug config). Qed.

Lemma registerIf_spec config toolId r st :
  registeredTools (registerIf config toolId r st)
    = registeredTools st ++ filter (λ i, shouldRegisterTool config i) [toolId]
  ∧ bound (registerIf config toolId r st)
    = bound st ++ (filter (λ p, shouldRegisterTool config p.1) [(toolId, r)]).*2.
Proof.
  unfold registerIf. rewrite !filter_cons, !filter_nil. simpl.
  destruct (shouldRegisterTool config toolId); simpl; by rewrite ?app_nil_r.
Qed.

(** The seven registration blocks amount to filtering the fixed registration
    order by [shouldRegisterTool]. *)
Lemma createServer_registered config :
  registeredTools (createServer config)
    = filter (λ i, shouldRegisterTool config i) registrationOrder.*1
  ∧ bound (createServer config)
    = (filter (λ p, shouldRegisterTool config p.1) registrationOrder).*2.
Proof.
  unfold createServer. cbv zeta.
  rewrite registeredTools_logRegistered, bound_logRegistered.
  repeat match goal with
  | |- context [registeredTools (registerIf ?c ?i ?r ?st)] =>
      rewrite (proj1 (registerIf_spec c i r st)), (proj2 (registerIf_spec c i r st))
  end.
  rewrite registeredTools_log, bound_log, registeredTools_logStart, bound_logStart.
  simpl registeredTools. simpl bound.
  unfold registrationOrder.
  repeat match goal with |- context [js ?s] => generalize (js s); intro end.
  simpl. rewrite !filter_cons, !filter_nil. simpl.
  repeat match goal with
  | |- context [shouldRegisterTool ?c ?i] =>
      destruct (shouldRegisterTool c i); simpl
  end; done.
Qed.

Lemma registrationOrder_NoDup :
  NoDup registrationOrder.*1 ∧ NoDup registrationOrder.*2.
Proof. split; by_computation. Qed.

(** The registration blocks cover the registry: same ids, another order. *)
Lemma registrationOrder_known : registrationOrder.*1 ≡ₚ knownIds.
Proof. by_computation. Qed.

Lemma sublist_fmap_snd {A B} (l1 l2 : list (A * B)) :
  l1 `sublist_of` l2 → l1.*2 `sublist_of` l2.*2.
Proof. induction 1; simpl; by constructor. Qed.

Lemma elem_of_registeredTools config id :
  id ∈ registeredTools (createServer config)
  ↔ shouldRegisterTool config id = true ∧ id ∈ knownIds.
Proof.
  rewrite (proj1 (createServer_registered config)), list_elem_of_filter.
  rewrite registrationOrder_known, Is_true_true. done.
Qed.

Lemma elem_of_activeSet config id :
  id ∈ activeSet config ↔ shouldRegisterTool config id = true ∧ id ∈ knownIds.
Proof. unfold activeSet. rewrite elem_of_list_to_set. apply elem_of_registeredTools. Qed.

(** C8: whatever the configuration (duplicates in the configured list
    included), no registration function is called twice on the server, and
    the [registeredTools] array holds no id twice. *)
Theorem C8_registered_once (config : Config) :
  NoDup (bound (createServer config))
  ∧ NoDup (registeredTools (createServer config)).
Proof.
  destruct (createServer_registered config) as [-> ->].
  destruct registrationOrder_NoDup as [H1 H2]. split.
  - eapply sublist_NoDup; [exact H2|]. apply sublist_fmap_snd, sublist_filter.
  - by apply NoDup_filter.
Qed.

(** A configured list that names a tool twice registers it once. *)
Example registered_once_duplicates :
  registeredTools (createServer
    {| exaApiKey := None;
       enabledTools := Some (TString (js "crawling_exa, crawling_exa,web_search_exa"));
       tools := None; debug := false |})
  = [js "web_search_exa"; js "crawling_exa"].
Proof. by vm_compute. Qed.

(** C2: the active set is within the ids of the registry; with a non-empty
    configured list it is exactly the configured ids that are known, the
    others being dropped; instantiating the server is a total function, so
    nothing is raised.  For the list [web_search_exa, bogus_tool] the result
    is exactly [web_search_exa]. *)
Theorem C2_active_subset_known (config : Config) :
  activeSet config ⊆ list_to_set knownIds
  ∧ (effectiveTools config ≠ [] →
       ∀ id, id ∈ activeSet config ↔ id ∈ effectiveTools config ∧ id ∈ knownIds)
  ∧ registeredTools (createServer mixedConfig) = [js "web_search_exa"]
  ∧ activeSet mixedConfig = {[ js "web_search_exa" ]}.
Proof.
  split; [|split; [|split]].
  - intros id. rewrite elem_of_activeSet, elem_of_list_to_set. tauto.
  - intros Hne id. rewrite elem_of_activeSet, shouldRegisterTool_effective.
    destruct (effectiveTools config) as [|x l] eqn:E; [done|].
    unfold includes. rewrite bool_decide_eq_true. done.
  - by vm_compute.
  - unfold activeSet.
    replace (registeredTools (createServer mixedConfig))
      with [js "web_search_exa"] by (by vm_compute).
    apply list_to_set_singleton_L.
Qed.

Lemma C2_active_subset_known_witness :
  effectiveTools mixedConfig ≠ []
  ∧ (js "web_search_exa" ∈ activeSet mixedConfig
     ↔ js "web_search_exa" ∈ effectiveTools mixedConfig
       ∧ js "web_search_exa" ∈ knownIds).
Proof.
  split; [by vm_compute|].
  apply (proj1 (proj2 (C2_active_subset_known mixedConfig))). by vm_compute.
Defined.

(** C10: the [tools_list] resource lists the ids of the registry, in its
    order, and the [enabled] flag of an entry is true exactly when its id is in
    the active set, that is when [shouldRegisterTool] accepted it at
    startup. *)
Theorem C10_tools_list_flags (config : Config) :
  tl_id <$> toolsList (createServer config) = knownIds
  ∧ Forall (λ e, (tl_enabled e = true ↔ tl_id e ∈ activeSet config)
                 ∧ (tl_enabled e = true ↔ tl_id e ∈ registeredTools (createServer config))
                 ∧ tl_enabled e = shouldRegisterTool config (tl_id e))
           (toolsList (createServer config)).
Proof.
  split.
  - unfold toolsList, knownIds. rewrite <- list_fmap_compose. done.
  - unfold toolsList. apply Forall_fmap, Forall_forall. intros e He. simpl.
    assert (Hk : e.1 ∈ knownIds) by (by apply list_elem_of_fmap_2).
    unfold includes. rewrite bool_decide_eq_true. unfold activeSet.
    rewrite elem_of_list_to_set. split; [done|]. split; [done|].
    destruct (shouldRegisterTool config e.1) eqn:E.
    + apply bool_decide_eq_true, elem_of_registeredTools. done.
    + apply bool_decide_eq_false. rewrite elem_of_registeredTools. intros [? _].
      congruence.
Qed.

Lemma registeredTools_ext c1 c2 :
  (∀ id, shouldRegisterTool c1 id = shouldRegisterTool c2 id) →
  registeredTools (createServer c1) = registeredTools (createServer c2).
Proof.
  intros Heq. rewrite !(proj1 (createServer_registered _)).
  apply list_filter_iff. intros id. by rewrite Heq.
Qed.

Lemma shouldRegisterTool_ext c1 c2 id :
  parsedEnabledTools c1 = parsedEnabledTools c2 →
  shouldRegisterTool c1 id = shouldRegisterTool c2 id.
Proof. intros Hp. unfold shouldRegisterTool. by rewrite Hp. Qed.

Lemma registerIf_ext c1 c2 id r st :
  parsedEnabledTools c1 = parsedEnabledTools c2 →
  registerIf c1 id r st = registerIf c2 id r st.
Proof. intros Hp. unfold registerIf. by rewrite (shouldRegisterTool_ext c1 c2). Qed.

(** The server depends on the configuration through the parsed list and the
    debug flag only. *)
Lemma createServer_ext c1 c2 :
  parsedEnabledTools c1 = parsedEnabledTools c2 → debug c1 = debug c2 →
  createServer c1 = createServer c2.
Proof.
  intros Hp Hd. unfold createServer. cbv zeta.
  rewrite !(λ id r st, registerIf_ext c1 c2 id r st Hp).
  unfold logStart, logRegistered. by rewrite Hp, Hd.
Qed.

Lemma registeredTools_defaults config :
  effectiveTools config = [] →
  registeredTools (createServer config) = defaultIds.
Proof.
  intros He. rewrite (proj1 (createServer_registered config)).
  rewrite (list_filter_iff _ (λ i, defaultEnabled i)).
  - by vm_compute.
  - intros id. by rewrite shouldRegisterTool_effective, He.
Qed.

(** C1 (amended): when the configured value is absent, is a string that
    splits, trims and filters to nothing (such as ["  , ,"]), or is the empty
    array, the registered tools are exactly the ids enabled by default, as for
    a configuration without the value.  An array is taken as it is. *)
Theorem C1_empty_selection_defaults (config : Config) :
  normalizedTools (toolsParam config) = [] →
  registeredTools (createServer config) = defaultIds
  ∧ activeSet config = list_to_set defaultIds
  ∧ activeSet config = activeSet (toolsConfig None).
Proof.
  intros Hn. rewrite <- effectiveTools_normalized in Hn.
  unfold activeSet. rewrite (registeredTools_defaults _ Hn).
  by rewrite (registeredTools_defaults (toolsConfig None)).
Qed.

Lemma C1_empty_selection_defaults_witness :
  normalizedTools (toolsParam (toolsConfig (Some (TString (js "  , ,"))))) = []
  ∧ registeredTools (createServer (toolsConfig (Some (TString (js "  , ,")))))
    = [js "web_search_exa"; js "get_code_context_exa"].
Proof.
  split; [by vm_compute|].
  refine (eq_trans (proj1 (C1_empty_selection_defaults _ _)) _); by vm_compute.
Defined.

(** C1 as stated fails on the array form: an array of blank entries trims to
    nothing, yet no tool at all is registered, not the default ones. *)
Lemma C1_counterexample :
  specNormalizedTools (toolsParam blankArrayConfig) = []
  ∧ registeredTools (createServer blankArrayConfig) = []
  ∧ activeSet blankArrayConfig ≠ list_to_set defaultIds.
Proof.
  split; [by vm_compute|]. split; [by vm_compute|].
  unfold activeSet.
  replace (registeredTools (createServer blankArrayConfig)) with (@nil jsstring)
    by (by vm_compute).
  intros Heq.
  assert (Hin : js "web_search_exa" ∈ (list_to_set defaultIds : gset jsstring)).
  { apply elem_of_list_to_set. by_computation. }
  rewrite <- Heq in Hin. by apply not_elem_of_empty in Hin.
Qed.

(** ** The two names and the two forms of the selection *)

Lemma split_sep_free sep x : sep ∉ x → split sep x = [x].
Proof.
  induction x as [|c x IH]; [done|]. intros Hn. simpl.
  destruct (N.eqb_spec c sep) as [->|Hc].
  - exfalso. apply Hn. by left.
  - rewrite IH; [done|]. intros Hin. apply Hn. by right.
Qed.

Lemma split_app_sep sep x rest :
  sep ∉ x → split sep (x ++ sep :: rest) = x :: split sep rest.
Proof.
  induction x as [|c x IH]; intros Hn; simpl.
  - by rewrite N.eqb_refl.
  - destruct (N.eqb_spec c sep) as [->|Hc].
    + exfalso. apply Hn. by left.
    + rewrite IH; [done|]. intros Hin. apply Hn. by right.
Qed.

Lemma split_join sep a :
  a ≠ [] → Forall (λ x, sep ∉ x) a → split sep (join [sep] a) = a.
Proof.
  induction a as [|x a IH]; [done|]. intros _ Ha.
  apply Forall_cons in Ha as [Hx Ha].
  destruct a as [|y a].
  - simpl. by apply split_sep_free.
  - change (join [sep] (x :: y :: a)) with (x ++ sep :: join [sep] (y :: a)).
    rewrite split_app_sep by done. f_equal. by apply IH.
Qed.

(** A list of trimmed, non-empty, comma-free identifiers is what its
    comma-separated form parses to. *)
Lemma parseToolString_join a :
  Forall (λ x, trim x = x ∧ x ≠ [] ∧ comma ∉ x) a →
  parseToolString (join [comma] a) = a.
Proof.
  intros Ha. destruct (decide (a = [])) as [->|Hne]; [done|].
  unfold parseToolString. rewrite split_join; [|done|].
  - induction Ha as [|x a (Ht & Hx & _) Ha IH]; [done|].
    rewrite fmap_cons, filter_cons, Ht.
    destruct x; [done|]. simpl.
    destruct a as [|y a]; [done|]. f_equal. by apply IH.
  - eapply Forall_impl; [exact Ha|]. simpl. tauto.
Qed.

Lemma registeredTools_effective c1 c2 :
  effectiveTools c1 = effectiveTools c2 →
  registeredTools (createServer c1) = registeredTools (createServer c2).
Proof.
  intros He. apply registeredTools_ext. intros id.
  by rewrite !shouldRegisterTool_effective, He.
Qed.

Lemma effectiveTools_viaTools k d v :
  effectiveTools (viaTools k d v) = normalizedTools (Some v).
Proof.
  rewrite effectiveTools_normalized. unfold toolsParam, jsOr. simpl.
  destruct v as [[|c s]|a]; done.
Qed.

(** C5 (amended): a value given under [tools] and the same value given under
    [enabledTools] produce the same server; a comma-separated string and the
    array of its trimmed, non-empty pieces produce the same registered tools;
    so an array of trimmed, non-empty, comma-free identifiers and the string
    that joins them with commas do.  The entries of an array are taken as they
    are. *)
Theorem C5_alias_and_forms (k : option jsstring) (d : bool) :
  (∀ v, createServer (viaTools k d v) = createServer (viaEnabledTools k d v))
  ∧ (∀ s, registeredTools (createServer (viaTools k d (TString s)))
          = registeredTools (createServer (viaTools k d (TArray (parseToolString s))))
          ∧ activeSet (viaTools k d (TString s))
            = activeSet (viaTools k d (TArray (parseToolString s))))
  ∧ (∀ a, Forall (λ x, trim x = x ∧ x ≠ [] ∧ comma ∉ x) a →
          normalizedTools (Some (TString (join [comma] a)))
            = normalizedTools (Some (TArray a))
          ∧ activeSet (viaTools k d (TString (join [comma] a)))
            = activeSet (viaTools k d (TArray a))).
Proof.
  split; [|split].
  - intros v. apply createServer_ext; [|done].
    unfold parsedEnabledTools, toolsParam, jsOr. simpl.
    destruct v as [[|c s]|a]; done.
  - intros s.
    assert (He : registeredTools (createServer (viaTools k d (TString s)))
      = registeredTools (createServer (viaTools k d (TArray (parseToolString s))))).
    { apply registeredTools_effective. by rewrite !effectiveTools_viaTools. }
    unfold activeSet. by rewrite He.
  - intros a Ha. pose proof (parseToolString_join a Ha) as Hp. split; [done|].
    unfold activeSet. f_equal. apply registeredTools_effective.
    by rewrite !effectiveTools_viaTools.
Qed.

Lemma C5_alias_and_forms_witness :
  Forall (λ x, trim x = x ∧ x ≠ [] ∧ comma ∉ x)
         [js "crawling_exa"; js "web_search_exa"]
  ∧ activeSet (viaTools None false (TString (js "crawling_exa,web_search_exa")))
    = activeSet (viaTools None false (TArray [js "crawling_exa"; js "web_search_exa"])).
Proof.
  assert (Ha : Forall (λ x, trim x = x ∧ x ≠ [] ∧ comma ∉ x)
                      [js "crawling_exa"; js "web_search_exa"]).
  { repeat constructor; try done; by_computation. }
  split; [exact Ha|].
  exact (proj2 (proj2 (proj2 (C5_alias_and_forms None false)) _ Ha)).
Defined.

(** C5 as stated fails: the string [" web_search_exa"] and the array holding
    that one string denote the same trimmed identifier, but the array is not
    trimmed, so it registers nothing while the string registers
    [web_search_exa]. *)
Lemma C5_counterexample :
  specNormalizedTools (Some (TString (js " web_search_exa")))
    = specNormalizedTools (Some (TArray [js " web_search_exa"]))
  ∧ normalizedTools (Some (TArray [js " web_search_exa"])) = [js " web_search_exa"]
  ∧ registeredTools (createServer (viaTools None false (TString (js " web_search_exa"))))
    = [js "web_search_exa"]
  ∧ registeredTools (createServer (viaTools None false (TArray [js " web_search_exa"])))
    = []
  ∧ activeSet (viaTools None false (TString (js " web_search_exa")))
    ≠ activeSet (viaTools None false (TArray [js " web_search_exa"])).
Proof.
  repeat (split; [by vm_compute|]).
  unfold activeSet.
  replace (registeredTools (createServer (viaTools None false (TString (js " web_search_exa")))))
    with [js "web_search_exa"] by (by vm_compute).
  replace (registeredTools (createServer (viaTools None false (TArray [js " web_search_exa"]))))
    with (@nil jsstring) by (by vm_compute).
  intros Heq.
  assert (Hin : js "web_search_exa" ∈ (list_to_set [js "web_search_exa"] : gset jsstring)).
  { apply elem_of_list_to_set. by left. }
  rewrite Heq in Hin. by apply not_elem_of_empty in Hin.
Qed.

(** ** Order of the configured list and order of registration *)

Lemma shouldRegisterTool_perm c1 c2 id :
  effectiveTools c1 ≡ₚ effectiveTools c2 →
  shouldRegisterTool c1 id = shouldRegisterTool c2 id.
Proof.
  intros Hp. rewrite !shouldRegisterTool_effective.
  destruct (effectiveTools c1) as [|x l], (effectiveTools c2) as [|y l'].
  - done.
  - by apply Permutation_nil_cons in Hp.
  - symmetry in Hp. by apply Permutation_nil_cons in Hp.
  - unfold includes. apply bool_decide_ext. by rewrite Hp.
Qed.

Lemma logs_registerIf config toolId r st :
  logs (registerIf config toolId r st) = logs st.
Proof. unfold registerIf. by destruct (shouldRegisterTool config toolId). Qed.

(** The lines logged in debug mode: the start line, the configured list when
    there is one, the line of every instantiation, the registered tools. *)
Lemma logs_createServer_debug config :
  debug config = true →
  logs (createServer config)
  = [js "Starting Exa MCP Server in debug mode"]
    ++ match parsedEnabledTools config with
       | Some l => [js "Enabled tools from config: " ++ join (js ", ") l]
       | None => []
       end
    ++ [js "Server initialized with modern MCP SDK and Smithery CLI support"]
    ++ [js "Registered "
        ++ numberToString (N.of_nat (length (registeredTools (createServer config))))
        ++ js " tools: "
        ++ join (js ", ") (registeredTools (createServer config))].
Proof.
  intros Hd. unfold createServer. cbv zeta.
  rewrite registeredTools_logRegistered.
  unfold logRegistered at 1. rewrite Hd. unfold log at 1. cbn [logs].
  rewrite !logs_registerIf. unfold logStart. rewrite Hd.
  destruct (parsedEnabledTools config); simpl; by rewrite <- ?app_assoc.
Qed.

(** C6 (amended): with a non-empty configured list, permuting the list changes
    neither the registered tools nor the active set; the registered tools
    follow the fixed order of the registration blocks of the server, whatever
    the order of the configured list, and that sequence is the one the debug
    line [Registered n tools: ...] prints.  The order of the configured list
    shows in the debug line [Enabled tools from config: ...] only. *)
Theorem C6_order_independent (c1 c2 : Config) :
  effectiveTools c1 ≠ [] →
  effectiveTools c1 ≡ₚ effectiveTools c2 →
  registeredTools (createServer c1) = registeredTools (createServer c2)
  ∧ activeSet c1 = activeSet c2
  ∧ registeredTools (createServer c1) `sublist_of` registrationOrder.*1
  ∧ (debug c1 = true →
     logs (createServer c1)
     = [ js "Starting Exa MCP Server in debug mode";
         js "Enabled tools from config: " ++ join (js ", ") (effectiveTools c1);
         js "Server initialized with modern MCP SDK and Smithery CLI support";
         js "Registered "
         ++ numberToString (N.of_nat (length (registeredTools (createServer c1))))
         ++ js " tools: "
         ++ join (js ", ") (registeredTools (createServer c1)) ]).
Proof.
  intros Hne Hp.
  assert (He : registeredTools (createServer c1) = registeredTools (createServer c2)).
  { apply registeredTools_ext. intros id. by apply shouldRegisterTool_perm. }
  split; [done|]. split; [unfold activeSet; by rewrite He|]. split.
  - rewrite (proj1 (createServer_registered c1)). apply sublist_filter.
  - intros Hd. rewrite (logs_createServer_debug c1 Hd).
    unfold effectiveTools in *. by destruct (parsedEnabledTools c1).
Qed.

Lemma C6_order_independent_witness :
  effectiveTools codeThenWeb ≠ []
  ∧ effectiveTools codeThenWeb ≡ₚ effectiveTools webThenCode
  ∧ registeredTools (createServer codeThenWeb)
    = registeredTools (createServer webThenCode)
  ∧ logs (createServer codeThenWeb)
    = [ js "Starting Exa MCP Server in debug mode";
        js "Enabled tools from config: get_code_context_exa, web_search_exa";
        js "Server initialized with modern MCP SDK and Smithery CLI support";
        js "Registered 2 tools: web_search_exa, get_code_context_exa" ].
Proof.
  assert (H1 : effectiveTools codeThenWeb ≠ []) by (by vm_compute).
  assert (H2 : effectiveTools codeThenWeb ≡ₚ effectiveTools webThenCode)
    by (by_computation).
  destruct (C6_order_independent codeThenWeb webThenCode H1 H2) as (E & _ & _ & L).
  split; [done|]. split; [done|]. split; [exact E|].
  refine (eq_trans (L eq_refl) _). by vm_compute.
Defined.

(** C6 as stated fails: for the configured list
    [get_code_context_exa, web_search_exa] the server registers, and logs,
    [web_search_exa, get_code_context_exa]. *)
Lemma C6_counterexample :
  effectiveTools codeThenWeb = [js "get_code_context_exa"; js "web_search_exa"]
  ∧ registeredTools (createServer codeThenWeb)
    = [js "web_search_exa"; js "get_code_context_exa"]
  ∧ last (logs (createServer codeThenWeb))
    = Some (js "Registered 2 tools: web_search_exa, get_code_context_exa")
  ∧ ¬ preservesInputOrder codeThenWeb.
Proof.
  repeat (split; [by vm_compute|]).
  unfold preservesInputOrder.
  replace (registeredTools (createServer codeThenWeb))
    with [js "web_search_exa"; js "get_code_context_exa"] by (by vm_compute).
  replace (effectiveTools codeThenWeb)
    with [js "get_code_context_exa"; js "web_search_exa"] by (by vm_compute).
  assert (Hne : js "get_code_context_exa" ≠ js "web_search_exa") by (by vm_compute).
  revert Hne. generalize (js "get_code_context_exa") (js "web_search_exa").
  intros g w Hne Hs.
  apply sublist_cons_l in Hs as (k1 & k2 & Hk & Hs).
  apply sublist_cons_l in Hs as (k3 & k4 & -> & _).
  destruct k1 as [|a [|b k1]]; simplify_list_eq;
    match goal with H : [] = ?k ++ _ |- _ => by destruct k end.
Qed.

(** ** The handlers *)

Lemma truthyStr_spec v : truthyStr v = true ↔ nonEmptyStr v.
Proof.
  unfold nonEmptyStr. destruct v as [[|c s]|]; simpl; split; try done.
  - intros (s & [= <-] & Hs). done.
  - intros _. by exists (c :: s).
  - intros (s & ? & _). done.
Qed.

Lemma apiKeyHeader_cases config env :
  (∀ k, config ≫= exaApiKey = Some k → k ≠ [] → apiKeyHeader config env = k)
  ∧ (¬ nonEmptyStr (config ≫= exaApiKey) →
     ∀ e, env = Some e → e ≠ [] → apiKeyHeader config env = e)
  ∧ (¬ nonEmptyStr (config ≫= exaApiKey) → ¬ nonEmptyStr env →
     apiKeyHeader config env = []).
Proof.
  unfold apiKeyHeader. split; [|split].
  - intros k -> Hk. by destruct k.
  - intros Hc e -> He. rewrite <- truthyStr_spec in Hc.
    destruct (truthyStr (config ≫= exaApiKey)); [done|]. by destruct e.
  - intros Hc He. rewrite <- truthyStr_spec in Hc, He.
    destruct (truthyStr (config ≫= exaApiKey)); [done|].
    by destruct (truthyStr env).
Qed.

Lemma header_stdHeaders {B} config env (u : jsstring) (t : N) (b : B) :
  header {| baseURL := BASE_URL; url := u; headers := stdHeaders config env;
            timeout := t; body := b |} (js "x-api-key")
  = Some (apiKeyHeader config env).
Proof.
  unfold header, stdHeaders. cbn [headers].
  generalize (apiKeyHeader config env). intros k. by vm_compute.
Qed.

Section HandlerProperties.
Context `{JsValue}.

(** C9: both handlers issue exactly one request, whatever the key; its
    [x-api-key] header is [config.exaApiKey] when that is a non-empty string,
    otherwise the environment variable [EXA_API_KEY] when that is non-empty,
    otherwise the empty string. *)
Theorem C9_api_key_header (config : option Config) (env : option jsstring) :
  (∀ remote args, ∃ req,
      (ExaCode.handler remote config env args).1 = [req]
      ∧ header req (js "x-api-key") = Some (apiKeyHeader config env))
  ∧ (∀ remote args, ∃ req,
      (DeepSearch.handler remote config env args).1 = [req]
      ∧ header req (js "x-api-key") = Some (apiKeyHeader config env))
  ∧ (∀ k, config ≫= exaApiKey = Some k → k ≠ [] → apiKeyHeader config env = k)
  ∧ (¬ nonEmptyStr (config ≫= exaApiKey) →
     ∀ e, env = Some e → e ≠ [] → apiKeyHeader config env = e)
  ∧ (¬ nonEmptyStr (config ≫= exaApiKey) → ¬ nonEmptyStr env →
     apiKeyHeader config env = []).
Proof.
  split; [|split; [|apply apiKeyHeader_cases]].
  - intros remote args. eexists. split; [done|]. apply header_stdHeaders.
  - intros remote args. eexists. split; [done|]. apply header_stdHeaders.
Qed.



(** C7 (amended): a successful answer of the search endpoint with no data,
    no results or zero results, and a successful answer of the code context
    endpoint with no data, give a result with the handler's "nothing found"
    text and no [isError] flag, which no failure gives.  The code context
    handler looks at nothing else: when the answer carries data, its
    [response] string is the result text as it is, be it empty and whatever
    [resultsCount] says. *)
Theorem C7_empty_response_is_benign (config : option Config)
    (env : option jsstring) :
  (∀ remote args data,
      remote (DeepSearch.request config env args) = Resolved data →
      structurallyEmpty data →
      (DeepSearch.handler remote config env args).2
        = {| content := [ {| type := js "text"; text := DeepSearch.noResultText |} ];
             isError := None |})
  ∧ (∀ remote args,
      remote (ExaCode.request config env args) = Resolved None →
      (ExaCode.handler remote config env args).2
        = {| content := [ {| type := js "text"; text := ExaCode.noResultText |} ];
             isError := None |})
  ∧ (∀ e, isError (DeepSearch.result (Rejected e)) = Some true
          ∧ isError (ExaCode.result (Rejected e)) = Some true)
  ∧ (∀ remote args d s,
      remote (ExaCode.request config env args) = Resolved (Some d) →
      ExaCode.response d = inl s →
      (ExaCode.handler remote config env args).2
        = {| content := [ {| type := js "text"; text := s |} ]; isError := None |})
  ∧ DeepSearch.noResultText
    = js "No search results found. Please try a different query or adjust your search parameters."
  ∧ ExaCode.noResultText
    = js "No code snippets or documentation found. Please try a different query, be more specific about the library or programming concept, or check the spelling of framework names.".
Proof.
  split; [|split; [|split; [|split; [|split]]]].
  - intros remote args data Hr He. simpl. rewrite Hr.
    destruct He as [->|(d & -> & [Hd|Hd])]; simpl; [done|by rewrite Hd..].
  - intros remote args Hr. simpl. by rewrite Hr.
  - intros e. split; by destruct e.
  - intros remote args d s Hr Hs. simpl. rewrite Hr. simpl.
    unfold ExaCode.codeContent. by rewrite Hs.
  - done.
  - done.
Qed.

End HandlerProperties.

(** *** The handlers on concrete answers *)

Lemma C9_api_key_header_witness :
  apiKeyHeader (Some keyConfig) (Some (js "env-key")) = js "key-1"
  ∧ apiKeyHeader (Some noKeyConfig) (Some (js "env-key")) = js "env-key"
  ∧ apiKeyHeader None None = [].
Proof.
  split; [|split].
  - apply (proj1 (proj2 (proj2
      (@C9_api_key_header numberValues (Some keyConfig) (Some (js "env-key")))))).
    + reflexivity.
    + by vm_compute.
  - apply (proj1 (proj2 (proj2 (proj2
      (@C9_api_key_header numberValues (Some noKeyConfig) (Some (js "env-key"))))))).
    + intros (s & [= <-] & Hs). done.
    + reflexivity.
    + by vm_compute.
  - apply (proj2 (proj2 (proj2 (proj2
      (@C9_api_key_header numberValues None None))))).
    + intros (s & [=] & _).
    + intros (s & [=] & _).
Defined.


Lemma C7_empty_response_is_benign_witness :
  (@DeepSearch.handler numberValues (λ _, Resolved (Some zeroResults))
     None None searchArgs).2
  = {| content := [ {| type := js "text"; text := DeepSearch.noResultText |} ];
       isError := None |}
  ∧ (@ExaCode.handler numberValues (λ _, Resolved None) None None codeArgs).2
    = {| content := [ {| type := js "text"; text := ExaCode.noResultText |} ];
         isError := None |}
  ∧ (@ExaCode.handler numberValues (λ _, Resolved (Some wordyZeroCount))
       None None codeArgs).2
    = {| content := [ {| type := js "text"; text := js "no match" |} ];
         isError := None |}.
Proof.
  split; [|split].
  - apply (proj1 (@C7_empty_response_is_benign numberValues None None)
             (λ _, Resolved (Some zeroResults)) searchArgs (Some zeroResults)).
    + reflexivity.
    + right. exists zeroResults. split; [reflexivity|]. right. reflexivity.
  - apply (proj1 (proj2 (@C7_empty_response_is_benign numberValues None None))
             (λ _, Resolved None) codeArgs).
    reflexivity.
  - apply (proj1 (proj2 (proj2 (proj2
             (@C7_empty_response_is_benign numberValues None None))))
             (λ _, Resolved (Some wordyZeroCount)) codeArgs wordyZeroCount).
    + reflexivity.
    + reflexivity.
Defined.

(** C7 as stated fails on the code context handler: an answer that carries
    data, with zero results and an empty [response], gives the empty text, not
    the "nothing found" text. *)
Lemma C7_counterexample :
  ExaCode.resultsCount zeroCountAnswer = Some 0
  ∧ (@ExaCode.handler numberValues (λ _, Resolved (Some zeroCountAnswer))
       None None codeArgs).2
    = {| content := [ {| type := js "text"; text := [] |} ]; isError := None |}
  ∧ (@ExaCode.handler numberValues (λ _, Resolved (Some zeroCountAnswer))
       None None codeArgs).2
    ≠ {| content := [ {| type := js "text"; text := ExaCode.noResultText |} ];
         isError := None |}.
Proof.
  split; [reflexivity|]. split; [reflexivity|].
  intros E. by vm_compute in E.
Qed.

(** ** The research task poll *)

Module PollFacts.
Import Poll.

Example serialize_sample :
  serializeValue sampleValue
  = jsq "{'summary':'a \\ b','sources':[12,-3,null,true],'empty':{}}".
Proof. by vm_compute. Qed.

Example parse_sample : parseJson (serializeValue sampleValue) = Some sampleValue.
Proof. by vm_compute. Qed.

(** *** Parsing undoes serialization *)

Lemma parseUint_digits d rest :
  delimited rest → parseUint (digitsOfUint d ++ rest) = (d, rest).
Proof.
  intros Hr. induction d; simpl; rewrite ?IHd; try done.
  destruct rest as [|c rest]; [done|]. simpl in *. unfold isDigit in Hr.
  by destruct (digitOf c).
Qed.

Lemma to_uint_nonnil n : N.to_uint n ≠ Decimal.Nil.
Proof. destruct n; [done|]. apply DecimalPos.Unsigned.to_uint_nonnil. Qed.

Lemma parseNat_number n rest :
  delimited rest → parseNat (numberToString n ++ rest) = Some (n, rest).
Proof.
  intros Hr. unfold parseNat, numberToString. rewrite parseUint_digits by done.
  pose proof (to_uint_nonnil n) as Hn. pose proof (DecimalN.Unsigned.of_to n) as Ho.
  destruct (N.to_uint n); by rewrite ?Ho.
Qed.

Lemma numberToString_head n :
  ∃ c t, numberToString n = c :: t ∧ isDigit c = true.
Proof.
  unfold numberToString. pose proof (to_uint_nonnil n) as Hn.
  destruct (N.to_uint n); [done|..]; simpl; by eexists _, _.
Qed.

Lemma parseChars_escape s rest :
  parseChars ((s ≫= escapeChar) ++ 34 :: rest) = Some (s, rest).
Proof.
  induction s as [|c s IH]; [done|].
  rewrite bind_cons, <- app_assoc. unfold escapeChar at 1.
  destruct (c =? 34) eqn:E1; simpl.
  - apply N.eqb_eq in E1 as ->. simpl. by rewrite IH.
  - destruct (c =? 92) eqn:E2; simpl.
    + apply N.eqb_eq in E2 as ->. simpl. by rewrite IH.
    + by rewrite E1, E2, IH.
Qed.

Lemma parseChars_quote s rest :
  ∃ t, quote s ++ rest = 34 :: t ∧ parseChars t = Some (s, rest).
Proof.
  exists ((s ≫= escapeChar) ++ 34 :: rest). split.
  - unfold quote. simpl. by rewrite <- app_assoc.
  - apply parseChars_escape.
Qed.

Lemma serializeValue_object fields :
  serializeValue (JObject fields) = 123 :: join [comma] (printField <$> fields) ++ [125].
Proof.
  change (serializeValue (JObject fields))
    with (123 :: join [comma]
                   ((λ '(k, x), quote k ++ 58 :: serializeValue x) <$> fields)
              ++ [125]).
  do 3 f_equal. apply list_fmap_ext. by intros _ [k x] _.
Qed.

Lemma parseValue_digit fuel c r :
  isDigit c = true →
  parseValue (S fuel) (c :: r)
  = '(n, r') ← parseNat (c :: r); Some (JNumber (Z.of_N n), r').
Proof. intros Hc. simpl. by rewrite Hc. Qed.

Lemma parseValue_array fuel c t :
  (c =? 93) = false →
  parseValue (S fuel) (91 :: c :: t)
  = '(l, r) ← parseItems fuel (c :: t); Some (JArray l, r).
Proof. intros Hc. simpl. by rewrite Hc. Qed.

Lemma parseValue_object fuel t :
  parseValue (S fuel) (123 :: 34 :: t)
  = '(l, r) ← parseFields fuel (34 :: t); Some (JObject l, r).
Proof. done. Qed.

Lemma parseItems_S fuel s :
  parseItems (S fuel) s
  = '(x, r) ← parseValue fuel s;
    match r with
    | c :: r' =>
        if c =? 93 then Some ([x], r')
        else if c =? 44 then '(l, r'') ← parseItems fuel r'; Some (x :: l, r'')
        else None
    | [] => None
    end.
Proof. done. Qed.

Lemma parseFields_S fuel r :
  parseFields (S fuel) (34 :: r)
  = '(k, r1) ← parseChars r;
    match r1 with
    | d :: r2 =>
        if d =? 58 then
          '(x, r3) ← parseValue fuel r2;
          match r3 with
          | e :: r4 =>
              if e =? 125 then Some ([(k, x)], r4)
              else if e =? 44 then
                '(l, r5) ← parseFields fuel r4; Some ((k, x) :: l, r5)
              else None
          | [] => None
          end
        else None
    | [] => None
    end.
Proof. done. Qed.

Lemma parseItems_roundtrip l :
  l ≠ [] → Forall roundtrips l →
  ∀ fuel rest, (sizeItems l ≤ fuel)%nat →
    parseItems fuel (join [comma] (serializeValue <$> l) ++ 93 :: rest)
    = Some (l, rest).
Proof.
  induction l as [|x l IH]; [done|]. intros _ HF fuel rest Hf.
  apply Forall_cons in HF as [Hx HF].
  destruct fuel as [|fuel]; [simpl in Hf; lia|]. rewrite parseItems_S.
  unfold sizeItems in Hf. simpl in Hf. fold (sizeItems l) in Hf.
  destruct l as [|y l].
  - simpl. rewrite Hx; [done|lia|done].
  - change (join [comma] (serializeValue <$> x :: y :: l))
      with (serializeValue x ++ [comma] ++ join [comma] (serializeValue <$> y :: l)).
    rewrite <- !app_assoc. rewrite Hx; [|lia|done]. simpl.
    rewrite IH; [done|done|done|lia].
Qed.

Lemma printField_app k x rest :
  printField (k, x) ++ rest
  = 34 :: (k ≫= escapeChar) ++ 34 :: 58 :: serializeValue x ++ rest.
Proof. unfold printField, quote. simpl. by rewrite <- !app_assoc. Qed.

Lemma parseFields_roundtrip l :
  l ≠ [] → Forall (λ f, roundtrips f.2) l →
  ∀ fuel rest, (sizeFields l ≤ fuel)%nat →
    parseFields fuel (join [comma] (printField <$> l) ++ 125 :: rest)
    = Some (l, rest).
Proof.
  induction l as [|[k x] l IH]; [done|]. intros _ HF fuel rest Hf.
  apply Forall_cons in HF as [Hx HF]. simpl in Hx.
  destruct fuel as [|fuel]; [simpl in Hf; lia|].
  unfold sizeFields in Hf. simpl in Hf. fold (sizeFields l) in Hf.
  destruct l as [|f l].
  - change (join [comma] (printField <$> [(k, x)])) with (printField (k, x)).
    rewrite printField_app, parseFields_S, parseChars_escape. simpl.
    rewrite Hx; [done|lia|done].
  - change (join [comma] (printField <$> (k, x) :: f :: l))
      with (printField (k, x) ++ [comma] ++ join [comma] (printField <$> f :: l)).
    rewrite <- !app_assoc.
    rewrite printField_app, parseFields_S, parseChars_escape. simpl.
    rewrite Hx; [|lia|done]. simpl.
    rewrite IH; [done|done|done|lia].
Qed.

Lemma isDigit_not_bracket c : isDigit c = true → (c =? 93) = false.
Proof.
  intros Hc. destruct (N.eqb_spec c 93) as [->|]; [|done]. by vm_compute in Hc.
Qed.

Lemma serializeValue_head v :
  ∃ c t, serializeValue v = c :: t ∧ (c =? 93) = false.
Proof.
  destruct v as [|[|]|n|s|items|fields]; try (by eexists _, _).
  simpl. unfold printNumber. destruct (n <? 0)%Z; [by eexists _, _|].
  destruct (numberToString_head (Z.to_N n)) as (c & t & -> & Hc).
  exists c, t. split; [done|]. by apply isDigit_not_bracket.
Qed.

Lemma join_cons_app sep (x : jsstring) l : ∃ t, join sep (x :: l) = x ++ t.
Proof.
  destruct l as [|y l]; [exists []; simpl; by rewrite app_nil_r|].
  by exists (sep ++ join sep (y :: l)).
Qed.

(** Parsing the serialization of a value gives the value back, with what
    followed it. *)
Lemma parseValue_roundtrip v : roundtrips v.
Proof.
  induction v as [|b|n|s|items IH|fields IH] using Json_nested_ind;
    intros fuel rest Hf Hr;
    (destruct fuel as [|fuel]; [simpl in Hf; lia|]).
  - done.
  - by destruct b.
  - simpl serializeValue. unfold printNumber.
    destruct (Z.ltb_spec n 0) as [Hn|Hn].
    + simpl. rewrite parseNat_number by done. simpl.
      do 3 f_equal. rewrite Z2N.id; lia.
    + destruct (numberToString_head (Z.to_N n)) as (c & t & E & Hc).
      rewrite E. rewrite <- app_comm_cons, parseValue_digit by done.
      rewrite app_comm_cons, <- E, parseNat_number by done. simpl.
      do 3 f_equal. rewrite Z2N.id; lia.
  - destruct (parseChars_quote s rest) as (t & E & Ht).
    simpl serializeValue. rewrite E. simpl. by rewrite Ht.
  - simpl serializeValue. rewrite <- app_comm_cons, <- app_assoc.
    change ([93] ++ rest) with (93 :: rest).
    destruct items as [|x items]; [done|].
    destruct (serializeValue_head x) as (c & t & Ex & Hc).
    destruct (join_cons_app [comma] (serializeValue x) (serializeValue <$> items))
      as (t' & Et).
    assert (E : join [comma] (serializeValue <$> x :: items) ++ 93 :: rest
                = c :: (t ++ t' ++ 93 :: rest)).
    { rewrite fmap_cons, Et, Ex. by rewrite <- !app_assoc. }
    rewrite E, parseValue_array by done. rewrite <- E.
    rewrite (parseItems_roundtrip (x :: items)); [done|done|done|].
    simpl in Hf. unfold sizeItems. simpl. lia.
  - rewrite serializeValue_object, <- app_comm_cons, <- app_assoc.
    change ([125] ++ rest) with (125 :: rest).
    destruct fields as [|[k x] fields]; [done|].
    destruct (join_cons_app [comma] (printField (k, x)) (printField <$> fields))
      as (t' & Et).
    assert (E : join [comma] (printField <$> (k, x) :: fields) ++ 125 :: rest
                = 34 :: ((k ≫= escapeChar) ++ 34 :: 58 :: serializeValue x
                         ++ t' ++ 125 :: rest)).
    { rewrite fmap_cons, Et, <- app_assoc. by rewrite printField_app. }
    rewrite E, parseValue_object. rewrite <- E.
    rewrite (parseFields_roundtrip ((k, x) :: fields)); [done|done|done|].
    simpl in Hf. unfold sizeFields. simpl. lia.
Qed.

Lemma length_numberToString n : (1 ≤ length (numberToString n))%nat.
Proof.
  destruct (numberToString_head n) as (c & t & -> & _). simpl. lia.
Qed.

Lemma length_join_cons sep (x : jsstring) y l :
  length (join sep (x :: y :: l))
  = (length x + length sep + length (join sep (y :: l)))%nat.
Proof.
  change (join sep (x :: y :: l)) with (x ++ sep ++ join sep (y :: l)).
  rewrite !length_app. lia.
Qed.

Lemma size_length v : (size v ≤ length (serializeValue v))%nat.
Proof.
  induction v as [|b|n|s|items IH|fields IH] using Json_nested_ind.
  - simpl. lia.
  - destruct b; simpl; lia.
  - simpl. unfold printNumber. destruct (n <? 0)%Z; simpl;
      pose proof (length_numberToString (Z.to_N n));
      pose proof (length_numberToString (Z.to_N (- n))); lia.
  - simpl. rewrite length_app. simpl. lia.
  - simpl serializeValue. simpl length. rewrite length_app. simpl.
    fold (sizeItems items).
    assert (sizeItems items ≤ length (join [comma] (serializeValue <$> items)) + 1)%nat;
      [|lia].
    induction IH as [|x l Hx _ IHl]; [simpl; lia|].
    unfold sizeItems. simpl foldr. fold (sizeItems l).
    destruct l as [|y l].
    + simpl. lia.
    + rewrite fmap_cons, fmap_cons, length_join_cons.
      rewrite <- fmap_cons. simpl length at 2. lia.
  - rewrite serializeValue_object. simpl length. rewrite length_app. simpl.
    fold (sizeFields fields).
    assert (sizeFields fields ≤ length (join [comma] (printField <$> fields)) + 1)%nat;
      [|lia].
    induction IH as [|[k x] l Hx _ IHl]; [simpl; lia|].
    unfold sizeFields. simpl foldr. fold (sizeFields l). simpl in Hx.
    assert (Hp : (size x + 1 ≤ length (printField (k, x)))%nat).
    { unfold printField, quote. simpl. rewrite !length_app. simpl. lia. }
    destruct l as [|f l].
    + change (join [comma] (printField <$> [(k, x)])) with (printField (k, x)).
      simpl sizeFields. lia.
    + rewrite fmap_cons, fmap_cons, length_join_cons.
      rewrite <- fmap_cons. simpl length at 2. lia.
Qed.

(** Parsing undoes serialization. *)
Lemma parseJson_serializeValue v : parseJson (serializeValue v) = Some v.
Proof.
  unfold parseJson.
  rewrite <- (app_nil_r (serializeValue v)) at 2.
  rewrite parseValue_roundtrip; [done| |done].
  pose proof (size_length v). lia.
Qed.

(** C3: for a completed snapshot, a report in the data is the result text,
    exactly; without a report, the result text is the serialization of the data
    object, a function of that object alone from which parsing gives the
    object back. *)
Theorem C3_completed_result_text (snap : ResearchTask) :
  status snap = completed →
  (∀ d X, data snap = Some d → report d = Some X →
     pollResult snap
     = {| content := [ {| type := js "text"; text := X |} ]; isError := None |})
  ∧ (∀ d, data snap = Some d → report d = None →
     ∃ t, pollResult snap
          = {| content := [ {| type := js "text"; text := t |} ]; isError := None |}
          ∧ t = serializeValue (JObject d)
          ∧ parseJson t = Some (JObject d)).
Proof.
  intros Hs. unfold pollResult. rewrite Hs. split.
  - intros d X -> ->. done.
  - intros d -> ->. eexists. split; [done|]. split; [done|].
    apply parseJson_serializeValue.
Qed.

Lemma C3_completed_result_text_witness :
  pollResult withReport
  = {| content := [ {| type := js "text"; text := js "X" |} ]; isError := None |}
  ∧ ∃ t, pollResult withoutReport
         = {| content := [ {| type := js "text"; text := t |} ]; isError := None |}
         ∧ t = jsq "{'answer':'42','pages':3}"
         ∧ parseJson t
           = Some (JObject [ (js "answer", JString (js "42")); (js "pages", JNumber 3) ]).
Proof.
  split.
  - apply (proj1 (C3_completed_result_text withReport eq_refl)
             [ (js "report", JString (js "X")); (js "pages", JNumber 3) ]).
    + reflexivity.
    + by vm_compute.
  - destruct (proj2 (C3_completed_result_text withoutReport eq_refl)
                [ (js "answer", JString (js "42")); (js "pages", JNumber 3) ]
                eq_refl) as (t & Ht & Et & Hp).
    + by vm_compute.
    + exists t. split; [exact Ht|]. split; [|exact Hp].
      rewrite Et. by vm_compute.
Defined.

End PollFacts.

(** * Further properties of the code *)

(** ** The comma-separated form of the selection *)

Lemma trimStart_startsClean s : startsClean (trimStart s).
Proof.
  induction s as [|c s IH]; [done|]. simpl.
  by destruct (isWhiteSpace c) eqn:E.
Qed.

Lemma trimStart_id x : startsClean x → trimStart x = x.
Proof. destruct x as [|c x]; [done|]. simpl. by intros ->. Qed.

Lemma trimStart_suffix s : ∃ p, s = p ++ trimStart s.
Proof.
  induction s as [|c s [p IH]]; [by exists []|]. simpl.
  destruct (isWhiteSpace c); [|by exists []].
  exists (c :: p). simpl. by rewrite <- IH.
Qed.

Lemma trimEnd_prefix s : ∃ q, s = trimEnd s ++ q.
Proof.
  unfold trimEnd. destruct (trimStart_suffix (reverse s)) as [p Hp].
  exists (reverse p). rewrite <- reverse_app, <- Hp. by rewrite reverse_involutive.
Qed.

Lemma trimEnd_startsClean s : startsClean s → startsClean (trimEnd s).
Proof.
  intros Hs. destruct (trimEnd_prefix s) as [q Hq].
  destruct (trimEnd s) as [|c t]; [done|]. rewrite Hq in Hs. done.
Qed.

Lemma trimEnd_idemp s : trimEnd (trimEnd s) = trimEnd s.
Proof.
  unfold trimEnd. rewrite reverse_involutive.
  by rewrite (trimStart_id _ (trimStart_startsClean _)).
Qed.

Lemma trim_startsClean s : startsClean (trim s) ∧ startsClean (reverse (trim s)).
Proof.
  split.
  - apply trimEnd_startsClean, trimStart_startsClean.
  - unfold trim, trimEnd. rewrite reverse_involutive. apply trimStart_startsClean.
Qed.

(** Trimming twice is trimming once. *)
Lemma trim_idemp s : trim (trim s) = trim s.
Proof.
  unfold trim at 1. rewrite (trimStart_id _ (proj1 (trim_startsClean s))).
  unfold trim. apply trimEnd_idemp.
Qed.

Lemma elem_of_trim c s : c ∈ trim s → c ∈ s.
Proof.
  unfold trim. intros Hc.
  destruct (trimEnd_prefix (trimStart s)) as [q Hq].
  destruct (trimStart_suffix s) as [p Hp].
  rewrite Hp, Hq. set_solver.
Qed.

Lemma trim_space_cons s : trim (32 :: s) = trim s.
Proof. done. Qed.

Lemma split_nonempty sep s : split sep s ≠ [].
Proof.
  destruct s as [|c s]; [done|]. simpl.
  destruct (c =? sep); [done|]. by destruct (split sep s).
Qed.

Lemma split_no_sep sep s : Forall (λ x, sep ∉ x) (split sep s).
Proof.
  induction s as [|c s IH]; simpl.
  - repeat constructor. apply not_elem_of_nil.
  - destruct (N.eqb_spec c sep) as [->|Hc].
    + constructor; [apply not_elem_of_nil|done].
    + destruct (split sep s) as [|w ws].
      * repeat constructor. by intros [?|?%elem_of_nil]%elem_of_cons.
      * apply Forall_cons in IH as [Hw Hws].
        constructor; [|done]. by intros [?|?]%elem_of_cons.
Qed.

(** Splitting distributes over a separator between two strings. *)
Lemma split_app sep s1 s2 :
  split sep (s1 ++ sep :: s2) = split sep s1 ++ split sep s2.
Proof.
  induction s1 as [|c s1 IH]; simpl.
  - by rewrite N.eqb_refl.
  - destruct (c =? sep); [by rewrite IH|]. rewrite IH.
    pose proof (split_nonempty sep s1). by destruct (split sep s1).
Qed.

Lemma parseToolString_app s1 s2 :
  parseToolString (s1 ++ comma :: s2) = parseToolString s1 ++ parseToolString s2.
Proof. unfold parseToolString. by rewrite split_app, fmap_app, filter_app. Qed.

Lemma parseToolString_space s : parseToolString (32 :: s) = parseToolString s.
Proof.
  unfold parseToolString. simpl.
  pose proof (split_nonempty comma s). destruct (split comma s) as [|w ws]; [done|].
  by rewrite !fmap_cons, trim_space_cons.
Qed.

Lemma parseToolString_clean s : Forall cleanEntry (parseToolString s).
Proof.
  apply Forall_forall. intros x [Hlen Hx]%list_elem_of_filter.
  apply list_elem_of_fmap in Hx as (y & -> & Hy). split; [|split].
  - intros E. rewrite E in Hlen. simpl in Hlen. lia.
  - apply trim_idemp.
  - intros Hc%elem_of_trim.
    pose proof (split_no_sep comma s) as Hs.
    rewrite Forall_forall in Hs. by apply (Hs y).
Qed.

Lemma parseToolString_join_log l :
  Forall cleanEntry l → parseToolString (join (js ", ") l) = l.
Proof.
  induction 1 as [|x l Hx Hl IH]; [done|].
  assert (Hx1 : parseToolString x = [x]).
  { apply (parseToolString_join [x]). by repeat constructor; destruct Hx as (?&?&?). }
  destruct l as [|y l]; [done|].
  change (join (js ", ") (x :: y :: l))
    with (x ++ comma :: 32 :: join (js ", ") (y :: l)).
  by rewrite parseToolString_app, parseToolString_space, Hx1, IH.
Qed.

(** X1: every identifier the string form yields is non-empty, has no white
    space at either end (trimming it changes nothing) and holds no comma. *)
Theorem X1_parsed_entries_clean (s : jsstring) :
  Forall (λ x, x ≠ [] ∧ trim x = x ∧ (comma ∉ x)
               ∧ startsClean x ∧ startsClean (reverse x))
         (parseToolString s).
Proof.
  eapply Forall_impl; [apply parseToolString_clean|].
  intros x (Hne & Ht & Hc). repeat split; try done.
  - rewrite <- Ht. apply trim_startsClean.
  - rewrite <- Ht. apply trim_startsClean.
Qed.

(** X2: the list the debug line [Enabled tools from config: ...] prints,
    joined with a comma and a space, is itself a configuration string that
    parses to the same list and registers the same tools. *)
Theorem X2_logged_list_parses_back (s : jsstring) (k : option jsstring) (d : bool) :
  parseToolString (join (js ", ") (parseToolString s)) = parseToolString s
  ∧ registeredTools
      (createServer (viaTools k d (TString (join (js ", ") (parseToolString s)))))
    = registeredTools (createServer (viaTools k d (TString s))).
Proof.
  assert (E : parseToolString (join (js ", ") (parseToolString s)) = parseToolString s)
    by (apply parseToolString_join_log, parseToolString_clean).
  split; [done|]. apply registeredTools_effective.
  rewrite !effectiveTools_viaTools. simpl. done.
Qed.

(** X3: parsing distributes over a comma between two strings, so two
    selections joined by a comma select what both select; a comma in front or
    at the end changes nothing. *)
Theorem X3_parse_distributes_over_comma (s1 s2 : jsstring) :
  parseToolString (s1 ++ [comma] ++ s2) = parseToolString s1 ++ parseToolString s2
  ∧ parseToolString (s1 ++ [comma]) = parseToolString s1
  ∧ parseToolString ([comma] ++ s2) = parseToolString s2.
Proof.
  split; [apply parseToolString_app|]. split.
  - rewrite (parseToolString_app s1 []). apply app_nil_r.
  - apply (parseToolString_app [] s2).
Qed.

(** ** The two names of the selection *)

(** X4: a truthy [tools] (any array, the empty one included, or a non-empty
    string) makes the server ignore [enabledTools]; a falsy [tools] (absent,
    or the empty string) makes it use [enabledTools]. *)
Theorem X4_tools_shadows_enabledTools (config : Config) :
  (truthy (tools config) = true →
     createServer config = createServer (dropEnabledTools config))
  ∧ (truthy (tools config) = false →
     createServer config = createServer (dropTools config)).
Proof.
  split; intros Ht; (apply createServer_ext; [|done]);
    unfold parsedEnabledTools, toolsParam, jsOr; simpl; rewrite Ht; [|done].
  by destruct (tools config) as [[[|c s]|a]|].
Qed.

Lemma X4_tools_shadows_enabledTools_witness :
  (truthy (tools shadowedConfig) = true
   ∧ registeredTools (createServer shadowedConfig)
     = registeredTools (createServer (dropEnabledTools shadowedConfig))
   ∧ registeredTools (createServer shadowedConfig)
     = [js "web_search_exa"; js "get_code_context_exa"])
  ∧ (truthy (tools fallThroughConfig) = false
     ∧ registeredTools (createServer fallThroughConfig)
       = registeredTools (createServer (dropTools fallThroughConfig))
     ∧ registeredTools (createServer fallThroughConfig) = [js "crawling_exa"]).
Proof.
  split.
  - split; [reflexivity|]. split; [|by vm_compute].
    exact (f_equal registeredTools
             (proj1 (X4_tools_shadows_enabledTools shadowedConfig) eq_refl)).
  - split; [reflexivity|]. split; [|by vm_compute].
    exact (f_equal registeredTools
             (proj2 (X4_tools_shadows_enabledTools fallThroughConfig) eq_refl)).
Defined.

(** ** Selections without a known id *)

(** X5: a non-empty selection that names no id of the registry registers
    nothing at all; the default tools are not registered in its place. *)
Theorem X5_unknown_only_registers_nothing (config : Config) :
  effectiveTools config ≠ [] →
  Forall (λ id, id ∉ knownIds) (effectiveTools config) →
  registeredTools (createServer config) = []
  ∧ bound (createServer config) = [].
Proof.
  intros Hne Hun.
  assert (Hf : filter (λ p : jsstring * Registrar, shouldRegisterTool config p.1)
                      registrationOrder = []).
  { apply elem_of_nil_inv. intros [id r] [Hs Hin]%list_elem_of_filter. simpl in Hs.
    rewrite shouldRegisterTool_effective in Hs.
    destruct (effectiveTools config) as [|x l] eqn:E; [done|].
    unfold includes in Hs. apply bool_decide_unpack in Hs.
    rewrite Forall_forall in Hun. apply (Hun id Hs).
    rewrite <- registrationOrder_known. by apply (list_elem_of_fmap_2 fst) in Hin. }
  destruct (createServer_registered config) as [Hr Hb].
  rewrite Hb, Hf. split; [|done].
  apply elem_of_nil_inv. intros id Hid.
  apply elem_of_registeredTools in Hid as [Hs Hk].
  rewrite shouldRegisterTool_effective in Hs.
  destruct (effectiveTools config) as [|x l] eqn:E; [done|].
  unfold includes in Hs. apply bool_decide_eq_true in Hs.
  rewrite Forall_forall in Hun. by apply (Hun id).
Qed.

Lemma X5_unknown_only_registers_nothing_witness :
  effectiveTools unknownOnlyConfig = [js "deep_search_exa"; js "Web_Search_Exa"]
  ∧ registeredTools (createServer unknownOnlyConfig) = []
  ∧ bound (createServer unknownOnlyConfig) = [].
Proof.
  split; [by vm_compute|].
  apply (X5_unknown_only_registers_nothing unknownOnlyConfig).
  - by vm_compute.
  - by_computation.
Defined.

(** ** The debug flag *)

(** X6: the debug flag changes neither the registration functions called nor
    the registered tools; without it the server logs one line only, the one
    of every instantiation. *)
Theorem X6_debug_only_logs (config : Config) (b : bool) :
  registeredTools (createServer (setDebug b config))
    = registeredTools (createServer config)
  ∧ bound (createServer (setDebug b config)) = bound (createServer config)
  ∧ (debug config = false →
     logs (createServer config)
     = [js "Server initialized with modern MCP SDK and Smithery CLI support"]).
Proof.
  assert (Hs : ∀ id, shouldRegisterTool (setDebug b config) id
                     = shouldRegisterTool config id).
  { intros id. by apply shouldRegisterTool_ext. }
  split; [by apply registeredTools_ext|]. split.
  - rewrite !(proj2 (createServer_registered _)).
    apply (f_equal (fmap snd)), list_filter_iff. intros p. by rewrite Hs.
  - intros Hd. unfold createServer. cbv zeta.
    unfold logRegistered at 1. rewrite Hd.
    rewrite !logs_registerIf. unfold logStart. by rewrite Hd.
Qed.

Lemma X6_debug_only_logs_witness :
  debug mixedConfig = false
  ∧ logs (createServer mixedConfig)
    = [js "Server initialized with modern MCP SDK and Smithery CLI support"].
Proof.
  split; [reflexivity|].
  apply (proj2 (proj2 (X6_debug_only_logs mixedConfig true))). reflexivity.
Defined.

(** ** The [tools_list] resource and the registered tools *)

(** ** The [tools_list] resource and the registered tools *)

Lemma length_filter_fmap {A B} (f : A → B) (P : B → Prop)
    `{∀ y, Decision (P y)} (l : list A) :
  length (filter P (f <$> l)) = length (filter (λ x, P (f x)) l).
Proof.
  induction l as [|x l IH]; [done|].
  rewrite fmap_cons, !filter_cons. destruct (decide (P (f x))); simpl; by rewrite IH.
Qed.

Lemma filter_ext_elem {A} (P Q : A → Prop) `{∀ x, Decision (P x)}
    `{∀ x, Decision (Q x)} (l : list A) :
  (∀ x, x ∈ l → (P x ↔ Q x)) → filter P l = filter Q l.
Proof.
  induction l as [|x l IH]; [done|]. intros HPQ.
  rewrite !filter_cons.
  assert (Hx : P x ↔ Q x) by (apply HPQ; by left).
  rewrite IH by (intros y Hy; apply HPQ; by right).
  destruct (decide (P x)), (decide (Q x)); tauto.
Qed.

(** X7: the [tools_list] resource marks as enabled exactly as many entries as
    there are registered tools, the number the debug line
    [Registered n tools: ...] prints. *)
Theorem X7_enabled_count (config : Config) :
  length (filter (λ e, tl_enabled e = true) (toolsList (createServer config)))
  = length (registeredTools (createServer config)).
Proof.
  unfold toolsList. rewrite length_filter_fmap.
  pose proof (length_filter_fmap fst
    (λ id, includes (registeredTools (createServer config)) id = true)
    availableTools) as Hfst.
  simpl in Hfst. simpl. rewrite <- Hfst. clear Hfst.
  fold knownIds. rewrite <- registrationOrder_known.
  rewrite (filter_ext_elem _ (λ id, shouldRegisterTool config id)).
  - by rewrite <- (proj1 (createServer_registered config)).
  - intros id Hid. unfold includes. rewrite bool_decide_eq_true.
    rewrite elem_of_registeredTools, <- registrationOrder_known, Is_true_true.
    tauto.
Qed.

(** ** The envelope and the requests of the handlers *)

Section FurtherHandlerProperties.
Context `{JsValue}.



(** X9: the body of a deep search request never asks for zero results (an
    absent or zero [numResults] becomes 10, any other number is passed on),
    never carries an empty [queryVariants] (it is present exactly when
    [search_queries] is a non-empty array, and then equal to it), and names
    [fallback] when no live crawl mode is given. *)
Theorem X9_search_request_defaults (config : option Config) (env : option jsstring)
    (args : DeepSearch.Args) :
  let b := body (DeepSearch.request config env args) in
  DeepSearch.r_numResults b ≠ 0%Z
  ∧ (∀ n, DeepSearch.numResults args = Some n → n ≠ 0%Z →
          DeepSearch.r_numResults b = n)
  ∧ (DeepSearch.numResults args = None ∨ DeepSearch.numResults args = Some 0%Z →
     DeepSearch.r_numResults b = 10%Z)
  ∧ DeepSearch.queryVariants b ≠ Some []
  ∧ (∀ l, DeepSearch.queryVariants b = Some l
          ↔ DeepSearch.search_queries args = Some l ∧ l ≠ [])
  ∧ (DeepSearch.livecrawl args = None →
     DeepSearch.c_livecrawl (DeepSearch.contents b) = DeepSearch.fallback)
  ∧ (∀ m, DeepSearch.livecrawl args = Some m →
          DeepSearch.c_livecrawl (DeepSearch.contents b) = m).
Proof.
  simpl. unfold DeepSearch.numResultsOr10.
  split; [|split; [|split; [|split; [|split; [|split]]]]].
  - destruct (DeepSearch.numResults args) as [n|]; [|done].
    destruct (Z.eqb_spec n 0); done.
  - intros n -> Hn. by destruct (Z.eqb_spec n 0).
  - by intros [->| ->].
  - by destruct (DeepSearch.search_queries args) as [[|q qs]|].
  - intros l. destruct (DeepSearch.search_queries args) as [[|q qs]|]; split;
      try done; try (by intros [[= <-] ?]); by intros [= <-].
  - by intros ->.
  - by intros m ->.
Qed.


End FurtherHandlerProperties.


Lemma X9_search_request_defaults_witness :
  DeepSearch.r_numResults (body (DeepSearch.request None None variantArgs)) = 5%Z
  ∧ DeepSearch.r_numResults (body (DeepSearch.request None None searchArgs)) = 10%Z
  ∧ DeepSearch.queryVariants (body (DeepSearch.request None None variantArgs))
    = Some [js "rocq prover"]
  ∧ DeepSearch.c_livecrawl
      (DeepSearch.contents (body (DeepSearch.request None None searchArgs)))
    = DeepSearch.fallback.
Proof.
  split; [|split; [|split]].
  - apply (proj1 (proj2 (X9_search_request_defaults None None variantArgs)) 5%Z);
      [reflexivity|done].
  - apply (proj1 (proj2 (proj2 (X9_search_request_defaults None None searchArgs)))).
    by left.
  - apply (proj1 (proj2 (proj2 (proj2 (proj2
             (X9_search_request_defaults None None variantArgs))))) _).
    split; [reflexivity|done].
  - apply (proj1 (proj2 (proj2 (proj2 (proj2 (proj2
             (X9_search_request_defaults None None searchArgs))))))).
    reflexivity.
Defined.


(** ** The server shell across versions *)








Lemma V3_registerIf_spec config toolId r st :
  V3.registeredTools (V3.registerIf config toolId r st)
    = V3.registeredTools st ++ filter (λ i, V3.shouldRegisterTool config i) [toolId]
  ∧ V3.bound (V3.registerIf config toolId r st)
    = V3.bound st
      ++ (filter (λ p, V3.shouldRegisterTool config p.1) [(toolId, r)]).*2.
Proof.
  unfold V3.registerIf. rewrite !filter_cons, !filter_nil. simpl.
  destruct (V3.shouldRegisterTool config toolId); simpl; by rewrite ?app_nil_r.
Qed.

Lemma V3_logStart_spec config st :
  V3.registeredTools (V3.logStart config st) = V3.registeredTools st
  ∧ V3.bound (V3.logStart config st) = V3.bound st.
Proof.
  unfold V3.logStart. destruct (debug config); [|done].
  by destruct (parsedEnabledTools config).
Qed.

Lemma V3_logRegistered_spec config st :
  V3.registeredTools (V3.logRegistered config st) = V3.registeredTools st
  ∧ V3.bound (V3.logRegistered config st) = V3.bound st.
Proof. unfold V3.logRegistered. by destruct (debug config). Qed.

Lemma V3_trackMCP_spec config st :
  V3.registeredTools (V3.trackMCP config st) = V3.registeredTools st
  ∧ V3.bound (V3.trackMCP config st) = V3.bound st
  ∧ V3.tracked (V3.trackMCP config st) = true.
Proof. unfold V3.trackMCP. by destruct (debug config). Qed.

(** The eight registration blocks of version 3.1.0 filter their fixed order. *)
Lemma V3_createServer_registered config :
  V3.registeredTools (V3.createServer config)
    = filter (λ i, V3.shouldRegisterTool config i) registrationOrderV3.*1
  ∧ V3.bound (V3.createServer config)
    = (filter (λ p, V3.shouldRegisterTool config p.1) registrationOrderV3).*2.
Proof.
  unfold V3.createServer. cbv zeta.
  rewrite (proj1 (V3_trackMCP_spec _ _)), (proj1 (proj2 (V3_trackMCP_spec _ _))).
  rewrite (proj1 (V3_logRegistered_spec _ _)), (proj2 (V3_logRegistered_spec _ _)).
  repeat match goal with
  | |- context [V3.registeredTools (V3.registerIf ?c ?i ?r ?s)] =>
      rewrite (proj1 (V3_registerIf_spec c i r s)), (proj2 (V3_registerIf_spec c i r s))
  end.
  change (V3.registeredTools (V3.log ?l ?s)) with (V3.registeredTools s).
  change (V3.bound (V3.log ?l ?s)) with (V3.bound s).
  rewrite (proj1 (V3_logStart_spec _ _)), (proj2 (V3_logStart_spec _ _)).
  cbn [V3.registeredTools V3.bound].
  unfold registrationOrderV3.
  repeat match goal with |- context [js ?s] => generalize (js s); intro end.
  simpl. rewrite !filter_cons, !filter_nil. simpl.
  repeat match goal with
  | |- context [V3.shouldRegisterTool ?c ?i] =>
      destruct (V3.shouldRegisterTool c i); simpl
  end; done.
Qed.

(** The two registries enable the same tools by default: the tool that
    version 3.1.0 adds is disabled. *)
Lemma V3_defaultEnabled id :
  default false (enabled <$> lookupTool V3.availableTools id) = defaultEnabled id.
Proof.
  unfold defaultEnabled, V3.availableTools, availableTools.
  repeat match goal with |- context [js ?s] => generalize (js s); intro end.
  simpl. repeat case_bool_decide; done.
Qed.

Lemma V3_shouldRegisterTool config id :
  V3.shouldRegisterTool config id = shouldRegisterTool config id.
Proof.
  unfold V3.shouldRegisterTool, shouldRegisterTool.
  by rewrite V3_defaultEnabled.
Qed.

(** X11: version 3.1.0 of the server shell registers what [index.ts]
    registers, in the same order, and besides it [deep_search_exa] when the
    selection names it; [index.ts] never registers [deep_search_exa], whatever
    the configuration.  Version 3.1.0 always switches analytics tracking
    on. *)
Theorem X11_v3_adds_deep_search (config : Config) :
  filter (λ id, id ≠ js "deep_search_exa")
         (V3.registeredTools (V3.createServer config))
    = registeredTools (createServer config)
  ∧ (js "deep_search_exa" ∈ V3.registeredTools (V3.createServer config)
     ↔ js "deep_search_exa" ∈ effectiveTools config)
  ∧ (js "deep_search_exa" ∉ registeredTools (createServer config))
  ∧ V3.tracked (V3.createServer config) = true.
Proof.
  rewrite (proj1 (V3_createServer_registered config)).
  rewrite (proj1 (createServer_registered config)).
  split; [|split; [|split]].
  - rewrite (list_filter_iff (λ i, V3.shouldRegisterTool config i)
                             (λ i, shouldRegisterTool config i))
      by (intros i; cbv beta; by rewrite V3_shouldRegisterTool).
    rewrite list_filter_filter.
    replace (registrationOrder.*1)
      with (filter (λ id, id ≠ js "deep_search_exa") registrationOrderV3.*1)
      by (by vm_compute).
    rewrite list_filter_filter. apply list_filter_iff. tauto.
  - rewrite list_elem_of_filter. cbv beta.
    rewrite V3_shouldRegisterTool, shouldRegisterTool_effective.
    assert (Hin : js "deep_search_exa" ∈ registrationOrderV3.*1) by by_computation.
    assert (Hd : defaultEnabled (js "deep_search_exa") = false) by (by vm_compute).
    destruct (effectiveTools config) as [|x l].
    + rewrite Hd. split; [by intros [? _]|by intros ?%elem_of_nil].
    + unfold includes. rewrite Is_true_true, bool_decide_eq_true. tauto.
  - intros [_ Hin]%list_elem_of_filter. revert Hin. by_computation.
  - unfold V3.createServer. cbv zeta. apply V3_trackMCP_spec.
Qed.

Lemma X11_v3_adds_deep_search_witness :
  V3.registeredTools (V3.createServer deepSearchConfig)
  = [js "web_search_exa"; js "deep_search_exa"]
  ∧ registeredTools (createServer deepSearchConfig) = [js "web_search_exa"]
  ∧ js "deep_search_exa" ∈ V3.registeredTools (V3.createServer deepSearchConfig).
Proof.
  split; [by vm_compute|]. split; [by vm_compute|].
  apply (proj1 (proj2 (X11_v3_adds_deep_search deepSearchConfig))).
  by_computation.
Defined.

(** ** Selections with the same members *)

(** X13: with two non-empty selections that name the same ids, however often
    and in whatever order, the same registration functions are called and the
    same tools registered. *)
Theorem X13_same_members_same_tools (c1 c2 : Config) :
  effectiveTools c1 ≠ [] → effectiveTools c2 ≠ [] →
  (∀ id, id ∈ effectiveTools c1 ↔ id ∈ effectiveTools c2) →
  registeredTools (createServer c1) = registeredTools (createServer c2)
  ∧ bound (createServer c1) = bound (createServer c2).
Proof.
  intros H1 H2 Hm.
  assert (Hs : ∀ id, shouldRegisterTool c1 id = shouldRegisterTool c2 id).
  { intros id. rewrite !shouldRegisterTool_effective.
    destruct (effectiveTools c1) as [|x l], (effectiveTools c2) as [|y l']; try done.
    unfold includes. apply bool_decide_ext, Hm. }
  split; [by apply registeredTools_ext|].
  rewrite !(proj2 (createServer_registered _)).
  apply (f_equal (fmap snd)), list_filter_iff. intros p. by rewrite Hs.
Qed.

Lemma X13_same_members_same_tools_witness :
  registeredTools
    (createServer (toolsConfig (Some (TString (js "crawling_exa,web_search_exa,crawling_exa")))))
  = registeredTools
      (createServer (toolsConfig (Some (TArray [js "web_search_exa"; js "crawling_exa"])))).
Proof.
  apply (X13_same_members_same_tools
           (toolsConfig (Some (TString (js "crawling_exa,web_search_exa,crawling_exa"))))
           (toolsConfig (Some (TArray [js "web_search_exa"; js "crawling_exa"])))).
  - by vm_compute.
  - by vm_compute.
  - intros id.
    replace (effectiveTools (toolsConfig (Some (TString (js "crawling_exa,web_search_exa,crawling_exa")))))
      with [js "crawling_exa"; js "web_search_exa"; js "crawling_exa"] by (by vm_compute).
    replace (effectiveTools (toolsConfig (Some (TArray [js "web_search_exa"; js "crawling_exa"]))))
      with [js "web_search_exa"; js "crawling_exa"] by (by vm_compute).
    rewrite !elem_of_cons, !elem_of_nil. tauto.
Defined.
